(** * cloudinit/sources/helpers/vultr.py: a shallow embedding

    The Vultr datasource helper of cloud-init: platform detection, the
    memoized metadata fetch, MAC-to-interface-name resolution, the network
    cache store and the synthesis of the network and vendor configuration
    documents.

    Python values are embedded as an inductive type, Python [str] as the list
    of its code points, exceptions as a sum, and the module globals
    ([METADATA], [MAC_TO_NICS]), the file system and the traffic with the
    outside world as an explicit state that survives a raised exception. *)

From Stdlib Require Import List String Ascii ZArith NArith Bool Arith Lia.
Import ListNotations.

Local Open Scope list_scope.
Set Warnings "-register-all".

(** ** Python strings *)

Module Str.

(** A Python [str] is a sequence of Unicode code points. *)
Definition pystr := list N.

(** A string literal of the source. *)
Definition lit (s : string) : pystr :=
  map N_of_ascii (list_ascii_of_string s).

Fixpoint eqb (a b : pystr) : bool :=
  match a, b with
  | [], [] => true
  | x :: a', y :: b' => N.eqb x y && eqb a' b'
  | _, _ => false
  end.

Definition is_empty (a : pystr) : bool :=
  match a with [] => true | _ => false end.

(** [s.startswith(p)] *)
Fixpoint starts_with (p s : pystr) : bool :=
  match p, s with
  | [], _ => true
  | x :: p', y :: s' => N.eqb x y && starts_with p' s'
  | _ :: _, [] => false
  end.

(** [needle in hay] on two strings *)
Fixpoint contains (needle hay : pystr) : bool :=
  match hay with
  | [] => is_empty needle
  | _ :: t => starts_with needle hay || contains needle t
  end.

(** The characters [str.isspace] accepts, which [str.strip()] removes. *)
Definition is_space (c : N) : bool :=
  ((9 <=? c) && (c <=? 13) || (28 <=? c) && (c <=? 32)
   || (c =? 133) || (c =? 160) || (c =? 5760)
   || (8192 <=? c) && (c <=? 8202)
   || (c =? 8232) || (c =? 8233) || (c =? 8239) || (c =? 8287)
   || (c =? 12288))%N.

Fixpoint lstrip (s : pystr) : pystr :=
  match s with
  | c :: t => if is_space c then lstrip t else s
  | [] => []
  end.

(** [s.strip()] *)
Definition strip (s : pystr) : pystr := rev (lstrip (rev (lstrip s))).

End Str.

Import Str.
Arguments lit s%_string.

(** ** The regular expression of [get_kernel_parameters] *)

Module Re.

Definition newline : N := 10%N.

(** [.*root=] anchored at the head of [s]: the length of the match the
    backtracking matcher finds. The star is greedy: a character that is not
    a newline is consumed first, and [root=] is tried at this position only
    when no match exists further on. *)
Fixpoint match_dotstar_root (s : pystr) : option nat :=
  match s with
  | [] => None
  | c :: t =>
      let here := if starts_with (lit "root=") s then Some 5 else None in
      if N.eqb c newline then here
      else match match_dotstar_root t with
           | Some n => Some (S n)
           | None => here
           end
  end.

(** [.+root=] anchored at the head of [s]. *)
Definition match_dotplus_root (s : pystr) : option nat :=
  match s with
  | [] => None
  | c :: t =>
      if N.eqb c newline then None
      else option_map S (match_dotstar_root t)
  end.

(** The scan of [re.sub]: [skip] characters of a match found earlier are
    still to be dropped; otherwise the leftmost match is looked for. *)
Fixpoint sub_scan (skip : nat) (s : pystr) : pystr :=
  match s with
  | [] => []
  | c :: t =>
      match skip with
      | S k => sub_scan k t
      | O =>
          match match_dotplus_root s with
          | Some (S n) => sub_scan n t
          | _ => c :: sub_scan 0 t
          end
      end
  end.

(** [re.sub(r'.+root=', '', content)] *)
Definition sub_dotplus_root (content : pystr) : pystr := sub_scan 0 content.

End Re.

(** ** Python values and exceptions *)

Inductive pyval : Type :=
| PNone
| PBool (b : bool)
| PInt (z : Z)
| PFloat (bits : N)
| PStr (s : pystr)
| PList (l : list pyval)
| PDict (d : list (pystr * pyval)).

Inductive exn : Type :=
| NameError (name : string)
| KeyError (key : pyval)
| IndexError
| TypeError
| RuntimeError
| UnicodeEncodeError
| UnicodeDecodeError
| JSONDecodeError
| UrlError
| OSError.

Definition result (A : Type) : Type := (exn + A)%type.

(** Lookup in a [dict] with [str] keys, kept in insertion order. *)
Fixpoint dict_lookup {A : Type} (k : pystr) (d : list (pystr * A)) : option A :=
  match d with
  | [] => None
  | (k', v) :: d' => if Str.eqb k k' then Some v else dict_lookup k d'
  end.

(** [d[k] = v]: an existing key keeps its place, a new one goes last. *)
Fixpoint dict_set {A : Type} (k : pystr) (v : A) (d : list (pystr * A))
  : list (pystr * A) :=
  match d with
  | [] => [(k, v)]
  | (k', v') :: d' =>
      if Str.eqb k k' then (k', v) :: d' else (k', v') :: dict_set k v d'
  end.

(** [v[k]] for a [str] key. *)
Definition getitem (v : pyval) (k : pystr) : result pyval :=
  match v with
  | PDict d =>
      match dict_lookup k d with
      | Some x => inr x
      | None => inl (KeyError (PStr k))
      end
  | _ => inl TypeError
  end.

(** [v[i]] for a non-negative integer literal. *)
Definition getindex (v : pyval) (i : nat) : result pyval :=
  match v with
  | PList l =>
      match nth_error l i with
      | Some x => inr x
      | None => inl IndexError
      end
  | PStr s =>
      match nth_error s i with
      | Some c => inr (PStr [c])
      | None => inl IndexError
      end
  | PDict _ => inl (KeyError (PInt (Z.of_nat i)))
  | _ => inl TypeError
  end.

(** [len(v)] *)
Definition py_len (v : pyval) : result nat :=
  match v with
  | PList l => inr (List.length l)
  | PStr s => inr (List.length s)
  | PDict d => inr (List.length d)
  | _ => inl TypeError
  end.

(** [hash(v)] succeeds: lists and dicts are not hashable. *)
Definition hashable (v : pyval) : bool :=
  match v with
  | PList _ | PDict _ => false
  | _ => true
  end.

(** ** The state of the process and of the machine *)

(** The caller's request settings: [params['url']], [params['timeout']],
    [params['retries']], [params['wait']]. *)
Record params : Type := mkParams {
  url : pystr;
  timeout : Z;
  retries : Z;
  wait : Z
}.

(** One call of [url_helper.readurl]. *)
Record request : Type := mkRequest {
  rq_url : pystr;
  rq_timeout : Z;
  rq_retries : Z;
  rq_headers : list (pystr * pystr);
  rq_sec_between : Z
}.

Record response : Type := mkResponse {
  code : Z;
  contents : list N
}.

(** The dict [get_metadata] builds: nine keys, eight of them bound to the
    text of a response and ['v1'] to the decoded JSON document. A dict of
    nine keys is never falsy, so [not METADATA] holds exactly when the global
    is still [None]. *)
Record bundle : Type := mkBundle {
  startup_script : pystr;
  hostname : pystr;
  user_data : pystr;
  mdisk_mode : pystr;
  root_password : pystr;
  ssh_keys : pystr;
  ipv6_dns1 : pystr;
  ipv6_addr : pystr;
  v1 : pyval
}.

(** What a path names: a file, by the characters its bytes decode to in the
    encoding of the locale, a file whose bytes do not decode, or a
    directory. *)
Inductive node : Type :=
| File (content : pystr)
| Undecodable
| Dir.

Record state : Type := mkState {
  METADATA : option bundle;
  MAC_TO_NICS : option (list (pystr * pystr));
  fs : list (string * node);
  http_log : list request;
  nic_queries : nat
}.

(** What the module calls and does not define. Each answer may depend on
    what was asked before. *)
Record host : Type := mkHost {
  read_dmi_data : string -> option pystr;
  readurl : list request -> request -> option response;
  bytes_decode : list N -> option pystr;
  json_loads : pystr -> option pyval;
  json_dumps : pyval -> option pystr;
  get_interfaces_by_mac : nat -> list (pystr * pystr)
}.

(** ** Computations: state with exceptions

    A raised exception keeps the state reached so far, as in Python. *)

Definition M (A : Type) : Type := state -> result A * state.

Definition ret {A : Type} (a : A) : M A := fun s => (inr a, s).

Definition raise {A : Type} (e : exn) : M A := fun s => (inl e, s).

Definition bind {A B : Type} (c : M A) (k : A -> M B) : M B :=
  fun s =>
    match c s with
    | (inr a, s') => k a s'
    | (inl e, s') => (inl e, s')
    end.

Definition lift {A : Type} (r : result A) : M A := fun s => (r, s).

Definition gets {A : Type} (f : state -> A) : M A := fun s => (inr (f s), s).

Definition modify (f : state -> state) : M unit := fun s => (inr tt, f s).

Declare Scope py_scope.
Delimit Scope py_scope with py.
Notation "x <- c ;; k" := (bind c (fun x => k))
  (at level 61, c at next level, right associativity) : py_scope.
Notation "c ;;; k" := (bind c (fun _ => k))
  (at level 61, right associativity) : py_scope.
Local Open Scope py_scope.

(** ** State accessors *)

Definition set_METADATA (md : bundle) (s : state) : state :=
  mkState (Some md) (MAC_TO_NICS s) (fs s) (http_log s) (nic_queries s).

Definition set_MAC_TO_NICS (m : list (pystr * pystr)) (s : state) : state :=
  mkState (METADATA s) (Some m) (fs s) (http_log s) (nic_queries s).

Definition set_fs (f : list (string * node)) (s : state) : state :=
  mkState (METADATA s) (MAC_TO_NICS s) f (http_log s) (nic_queries s).

Definition log_request (rq : request) (s : state) : state :=
  mkState (METADATA s) (MAC_TO_NICS s) (fs s) (http_log s ++ [rq])
          (nic_queries s).

Definition count_query (s : state) : state :=
  mkState (METADATA s) (MAC_TO_NICS s) (fs s) (http_log s)
          (S (nic_queries s)).

(** ** The names of the module

    What the import lines, the assignments and the [def]s of vultr.py bind.
    The line [from os import path] binds [path] and nothing else. *)

Definition module_globals : list string :=
  ["json"; "re"; "path"; "base64"; "log"; "url_helper"; "dmi"; "net";
   "LOGGER"; "API_MAP"; "MAC_TO_NICS"; "METADATA";
   "get_metadata"; "get_sysinfo"; "get_kernel_parameters"; "is_vultr";
   "get_cached_network_config"; "cache_network_config"; "read_metadata";
   "get_url"; "fetch_metadata"; "get_interface_name";
   "generate_network_config"; "generate_config"]%string.

(** Reading a global name that is not a builtin. *)
Definition load_global (name : string) : M unit :=
  if existsb (String.eqb name) module_globals
  then ret tt
  else raise (NameError name).

(** ** The file system *)

Fixpoint fs_lookup (p : string) (f : list (string * node)) : option node :=
  match f with
  | [] => None
  | (q, n) :: f' => if String.eqb p q then Some n else fs_lookup p f'
  end.

Fixpoint fs_store (p : string) (n : node) (f : list (string * node))
  : list (string * node) :=
  match f with
  | [] => [(p, n)]
  | (q, m) :: f' =>
      if String.eqb p q then (q, n) :: f' else (q, m) :: fs_store p n f'
  end.

(** [path.exists(p)] *)
Definition path_exists (p : string) : M bool :=
  gets (fun s => match fs_lookup p (fs s) with Some _ => true | None => false end).

(** [path.isdir(p)] *)
Definition path_isdir (p : string) : M bool :=
  gets (fun s => match fs_lookup p (fs s) with Some Dir => true | _ => false end).

(** The newline translation of a file opened in text mode for reading: a
    carriage return, with the line feed that follows it if there is one,
    reads as one line feed. *)
Fixpoint universal_newlines (s : pystr) : pystr :=
  match s with
  | [] => []
  | c :: t =>
      if N.eqb c 13
      then
        match t with
        | d :: t' =>
            if N.eqb d 10 then 10%N :: universal_newlines t'
            else 10%N :: universal_newlines t
        | [] => [10%N]
        end
      else c :: universal_newlines t
  end.

(** [open(p).read()], then [close()]: the file is opened in text mode, so
    its bytes are decoded and its newlines translated. *)
Definition read_file (p : string) : M pystr :=
  fun s =>
    match fs_lookup p (fs s) with
    | Some (File c) => (inr (universal_newlines c), s)
    | Some Undecodable => (inl UnicodeDecodeError, s)
    | _ => (inl OSError, s)
    end.

(** [open(p, "w")], [write(text)], [close()] for a file of directory [dir]. *)
Definition write_file (dir p : string) (text : pystr) : M unit :=
  fun s =>
    match fs_lookup dir (fs s), fs_lookup p (fs s) with
    | Some Dir, Some Dir => (inl OSError, s)
    | Some Dir, _ => (inr tt, set_fs (fs_store p (File text) (fs s)) s)
    | _, _ => (inl OSError, s)
    end.

(** [os.makedirs(..., exist_ok=True)] on the chain of directories that leads
    to the leaf, outermost first. *)
Fixpoint makedirs (chain : list string) : M unit :=
  match chain with
  | [] => ret tt
  | d :: rest =>
      fun s =>
        match fs_lookup d (fs s) with
        | Some (File _) | Some Undecodable => (inl OSError, s)
        | Some Dir => makedirs rest s
        | None => makedirs rest (set_fs (fs_store d Dir (fs s)) s)
        end
  end.

(** ** base64 and the ascii codec *)

Definition b64_alphabet : pystr :=
  lit "ABCDEFGHIJKLMNOPQRSTUVWXYZabcdefghijklmnopqrstuvwxyz0123456789+/".

Definition b64_char (i : N) : N := nth (N.to_nat i) b64_alphabet 0%N.

Definition b64_pad : N := 61%N.

(** [base64.b64encode] *)
Fixpoint b64encode (bs : list N) : list N :=
  match bs with
  | [] => []
  | [a] =>
      [b64_char (N.shiftr a 2);
       b64_char (N.shiftl (N.land a 3) 4);
       b64_pad; b64_pad]
  | [a; b] =>
      [b64_char (N.shiftr a 2);
       b64_char (N.lor (N.shiftl (N.land a 3) 4) (N.shiftr b 4));
       b64_char (N.shiftl (N.land b 15) 2);
       b64_pad]
  | a :: b :: c :: rest =>
      b64_char (N.shiftr a 2)
      :: b64_char (N.lor (N.shiftl (N.land a 3) 4) (N.shiftr b 4))
      :: b64_char (N.lor (N.shiftl (N.land b 15) 2) (N.shiftr c 6))
      :: b64_char (N.land c 63)
      :: b64encode rest
  end.

Definition is_ascii (s : list N) : bool := forallb (fun c => (c <? 128)%N) s.

(** [s.encode("ascii")] *)
Definition encode_ascii (s : pystr) : result (list N) :=
  if is_ascii s then inr s else inl UnicodeEncodeError.

(** [bs.decode("ascii")] *)
Definition decode_ascii (bs : list N) : result pystr :=
  if is_ascii bs then inr bs else inl UnicodeDecodeError.

(** ** vultr.py *)

(** The table of the fixed endpoints. *)
Definition API_MAP : list (pystr * pystr) :=
  [(lit "startup-script", lit "/latest/startup-script");
   (lit "hostname", lit "/latest/meta-data/hostname");
   (lit "user-data", lit "/latest/user-data");
   (lit "mdisk-mode", lit "/v1/internal/mdisk-mode");
   (lit "root-password", lit "/v1/internal/root-password");
   (lit "ssh-keys", lit "/current/ssh-keys");
   (lit "ipv6-dns1", lit "/current/ipv6-dns1");
   (lit "ipv6-addr", lit "/current/meta-data/ipv6-addr");
   (lit "v1.json", lit "/v1.json")].

(** The dict of [get_sysinfo]. *)
Record sysinfo : Type := mkSysinfo {
  manufacturer : option pystr;
  subid : option pystr;
  product : option pystr;
  family : option pystr
}.

(** [x == "literal"] for a value that is a [str] or [None]. *)
Definition opt_str_eqb (x : option pystr) (l : pystr) : bool :=
  match x with
  | Some s => Str.eqb s l
  | None => false
  end.

(** [not x] for a value that is a dict or [None]. *)
Definition dict_falsy {A : Type} (x : option (list (pystr * A))) : bool :=
  match x with
  | Some (_ :: _) => false
  | _ => true
  end.

(** [not x] for a value that is a [str] or [None]. *)
Definition str_falsy (x : option pystr) : bool :=
  match x with
  | Some (_ :: _) => false
  | _ => true
  end.

(** [a + b] on two values. *)
Definition py_add (a b : pyval) : result pyval :=
  match a, b with
  | PList x, PList y => inr (PList (x ++ y))
  | PStr x, PStr y => inr (PStr (x ++ y))
  | _, _ => inl TypeError
  end.

(** [d[k] = v] on a value. *)
Definition setitem (d : pyval) (k : pystr) (v : pyval) : result pyval :=
  match d with
  | PDict l => inr (PDict (dict_set k v l))
  | _ => inl TypeError
  end.

(** [d[k].append(x)]: the list is shared with the dict that holds it. *)
Definition append_at (d : pyval) (k : pystr) (x : pyval) : result pyval :=
  match getitem d k with
  | inr (PList l) => setitem d k (PList (l ++ [x]))
  | inr _ => inl TypeError
  | inl e => inl e
  end.

(** [get_url] *)
Definition get_url (url flag : pystr) : pystr :=
  match dict_lookup flag API_MAP with
  | Some suffix => url ++ suffix
  | None =>
      if contains (lit "app-") flag || contains (lit "md-") flag
      then url ++ lit "/v1/internal/" ++ flag
      else []
  end.

(** [response.ok()] *)
Definition ok (r : response) : bool := ((200 <=? code r) && (code r <? 300))%Z.

(** The dict display [netcfg = {...}] of the primary interface. Its values
    are read in source order: the MAC, then address, gateway and netmask of
    the ipv4 block. *)
Definition primary_netcfg (interface_name : pystr) (interface : pyval)
  : result pyval :=
  match getitem interface (lit "mac") with
  | inl e => inl e
  | inr mac =>
  match getitem interface (lit "ipv4") with
  | inl e => inl e
  | inr ipv4 =>
  match getitem ipv4 (lit "address") with
  | inl e => inl e
  | inr address =>
  match getitem ipv4 (lit "gateway") with
  | inl e => inl e
  | inr gateway =>
  match getitem ipv4 (lit "netmask") with
  | inl e => inl e
  | inr netmask =>
      inr (PDict
        [(lit "name", PStr interface_name);
         (lit "type", PStr (lit "physical"));
         (lit "mac_address", mac);
         (lit "accept-ra", PInt 1);
         (lit "subnets", PList
            [PDict [(lit "type", PStr (lit "static"));
                    (lit "control", PStr (lit "auto"));
                    (lit "address", address);
                    (lit "gateway", gateway);
                    (lit "netmask", netmask)];
             PDict [(lit "type", PStr (lit "dhcp6"));
                    (lit "control", PStr (lit "auto"))]])])
  end end end end end.

(** The dict display [netcfg = {...}] of the secondary interface: the gateway
    is not read. *)
Definition secondary_netcfg (interface_name : pystr) (interface : pyval)
  : result pyval :=
  match getitem interface (lit "mac") with
  | inl e => inl e
  | inr mac =>
  match getitem interface (lit "ipv4") with
  | inl e => inl e
  | inr ipv4 =>
  match getitem ipv4 (lit "address") with
  | inl e => inl e
  | inr address =>
  match getitem ipv4 (lit "netmask") with
  | inl e => inl e
  | inr netmask =>
      inr (PDict
        [(lit "name", PStr interface_name);
         (lit "type", PStr (lit "physical"));
         (lit "mac_address", mac);
         (lit "accept-ra", PInt 1);
         (lit "subnets", PList
            [PDict [(lit "type", PStr (lit "static"));
                    (lit "control", PStr (lit "auto"));
                    (lit "address", address);
                    (lit "netmask", netmask)]])])
  end end end end.

Section Vultr.

Variable W : host.

(** [get_sysinfo] *)
Definition get_sysinfo : sysinfo :=
  mkSysinfo (read_dmi_data W "system-manufacturer")
            (read_dmi_data W "system-serial-number")
            (read_dmi_data W "system-product-name")
            (read_dmi_data W "system-family").

(** [get_kernel_parameters] *)
Definition get_kernel_parameters : M pystr :=
  e <- path_exists "/proc/cmdline" ;;
  if negb e then ret []
  else
    content <- read_file "/proc/cmdline" ;;
    if negb (contains (lit "root=") content) then ret []
    else
      match nth_error (Re.sub_dotplus_root content) 1 with
      | Some c => ret (strip [c])
      | None => raise IndexError
      end.

(** [is_vultr] *)
Definition is_vultr : M bool :=
  let sysinfo := get_sysinfo in
  if opt_str_eqb (manufacturer sysinfo) (lit "Vultr") then ret true
  else
    kp <- get_kernel_parameters ;;
    if contains (lit "vultr") kp then ret true
    else
      e <- path_exists "/etc/vultr" ;;
      d <- (if e then path_isdir "/etc/vultr" else ret false) ;;
      if d then ret true else ret false.

(** [get_cached_network_config] *)
Definition get_cached_network_config : M pystr :=
  load_global "os" ;;;
  makedirs ["/etc"; "/etc/vultr"; "/etc/vultr/cache"]%string ;;;
  let content := [] in
  e <- path_exists "/etc/vultr/cache/network" ;;
  if e then read_file "/etc/vultr/cache/network" else ret content.

(** [cache_network_config] *)
Definition cache_network_config (config : pyval) : M unit :=
  load_global "os" ;;;
  makedirs ["/etc"; "/etc/vultr"; "/etc/vultr/cache"]%string ;;;
  match json_dumps W config with
  | Some text => write_file "/etc/vultr/cache" "/etc/vultr/cache/network" text
  | None => raise TypeError
  end.

(** [read_metadata]. The message of the [raise] is built with [%] from a
    format of two fields and the single value [params['url']], which fails
    with a TypeError before RuntimeError is constructed. *)
Definition read_metadata (p : params) : M pystr :=
  fun s =>
    let rq := mkRequest (url p) (timeout p) (retries p)
                        [(lit "Metadata-Token", lit "vultr")] (wait p) in
    let s' := log_request rq s in
    match readurl W (http_log s) rq with
    | None => (inl UrlError, s')
    | Some r =>
        if negb (ok r) then (inl TypeError, s')
        else
          match bytes_decode W (contents r) with
          | Some text => (inr text, s')
          | None => (inl UnicodeDecodeError, s')
          end
    end.

(** [fetch_metadata] *)
Definition fetch_metadata (flag : pystr) (p : params) : M pystr :=
  let req := mkParams (get_url (url p) flag) (timeout p) (retries p) (wait p) in
  if Str.eqb (url req) [] then raise RuntimeError
  else read_metadata req.

(** The dict display of [get_metadata]: nine fetches in source order, the
    last one decoded by [json.loads]. *)
Definition fetch_cycle (p : params) : M bundle :=
  a <- fetch_metadata (lit "startup-script") p ;;
  b <- fetch_metadata (lit "hostname") p ;;
  c <- fetch_metadata (lit "user-data") p ;;
  d <- fetch_metadata (lit "mdisk-mode") p ;;
  e <- fetch_metadata (lit "root-password") p ;;
  f <- fetch_metadata (lit "ssh-keys") p ;;
  g <- fetch_metadata (lit "ipv6-dns1") p ;;
  h <- fetch_metadata (lit "ipv6-addr") p ;;
  j <- fetch_metadata (lit "v1.json") p ;;
  match json_loads W j with
  | Some doc => ret (mkBundle a b c d e f g h doc)
  | None => raise JSONDecodeError
  end.

(** [get_metadata] *)
Definition get_metadata (p : params) : M bundle :=
  cached <- gets METADATA ;;
  match cached with
  | Some md => ret md
  | None =>
      md <- fetch_cycle p ;;
      modify (set_METADATA md) ;;;
      ret md
  end.

(** [get_interface_name] *)
Definition get_interface_name (mac : pyval) : M (option pystr) :=
  cached <- gets MAC_TO_NICS ;;
  (if dict_falsy cached
   then
     n <- gets nic_queries ;;
     modify count_query ;;;
     modify (set_MAC_TO_NICS (get_interfaces_by_mac W n))
   else ret tt) ;;;
  now <- gets MAC_TO_NICS ;;
  match now with
  | None => raise TypeError
  | Some m =>
      if negb (hashable mac) then raise TypeError
      else
        match mac with
        | PStr k => ret (dict_lookup k m)
        | _ => ret None
        end
  end.

(** One [if len(md['v1']['interfaces']) > i:] block of
    [generate_network_config]. *)
Definition interface_block (md : bundle) (i : nat)
    (netcfg : pystr -> pyval -> result pyval) (network : pyval) : M pyval :=
  interfaces <- lift (getitem (v1 md) (lit "interfaces")) ;;
  n <- lift (py_len interfaces) ;;
  if (i <? n)%nat then
    interface <- lift (getindex interfaces i) ;;
    mac <- lift (getitem interface (lit "mac")) ;;
    interface_name <- get_interface_name mac ;;
    if str_falsy interface_name then
      lift (getitem interface (lit "mac")) ;;; raise RuntimeError
    else
      match interface_name with
      | Some name =>
          block <- lift (netcfg name interface) ;;
          lift (append_at network (lit "config") block)
      | None => raise RuntimeError
      end
  else ret network.

(** [generate_network_config] *)
Definition generate_network_config (config : params) : M pyval :=
  md <- get_metadata config ;;
  let network :=
    PDict [(lit "version", PInt 1);
           (lit "config", PList
              [PDict [(lit "type", PStr (lit "nameserver"));
                      (lit "address", PList [PStr (lit "108.61.10.10")])]])] in
  network <- interface_block md 0 primary_netcfg network ;;
  network <- interface_block md 1 secondary_netcfg network ;;
  ret network.

(** [generate_config] *)
Definition generate_config (config : params) : M pyval :=
  md <- get_metadata config ;;
  let script := startup_script md in
  script <-
    (if negb (Str.eqb script [])
     then
       raw <- lift (encode_ascii script) ;;
       lift (decode_ascii (b64encode raw))
     else ret script) ;;
  let rootpw := root_password md in
  network <- generate_network_config config ;;
  let config_template :=
    PDict [(lit "package_upgrade", PStr (lit "true"));
           (lit "disable_root", PInt 0);
           (lit "ssh_pwauth", PInt 1);
           (lit "chpasswd", PDict
              [(lit "expire", PBool false);
               (lit "list", PList [PStr (lit "root:" ++ rootpw)])]);
           (lit "system_info", PDict
              [(lit "default_user", PDict [(lit "name", PStr (lit "root"))])]);
           (lit "network", network)] in
  if negb (Str.eqb script [])
  then
    config_template <-
      lift (setitem config_template (lit "write_files")
              (PList
                 [PDict [(lit "encoding", PStr (lit "b64"));
                         (lit "content", PStr script);
                         (lit "owner", PStr (lit "root:root"));
                         (lit "path", PStr (lit "/tmp/startup-vultr.sh"));
                         (lit "permissions", PStr (lit "0755"))]])) ;;
    runcmd <- lift (getitem config_template (lit "runcmd")) ;;
    extended <-
      lift (py_add runcmd
              (PList
                 [PStr (lit "/tmp/startup-vultr.sh &> /var/log/vultr-boot.log");
                  PStr (lit "rm -f /tmp/startup-vultr.sh")])) ;;
    lift (setitem config_template (lit "runcmd") extended)
  else ret config_template.

End Vultr.

(** ** A concrete machine

    The instance of the upstream unit tests: two interfaces, the root
    password [hunter2], a metadata service that answers every request with
    status 200. *)

Module Fixture.

Definition base : pystr := lit "http://169.254.169.254".

Definition config : params := mkParams base 10 3 1.

Definition iface0 : pyval :=
  PDict [(lit "ipv4", PDict [(lit "additional", PList []);
                             (lit "address", PStr (lit "108.61.89.242"));
                             (lit "gateway", PStr (lit "108.61.89.1"));
                             (lit "netmask", PStr (lit "255.255.255.0"))]);
         (lit "mac", PStr (lit "56:00:03:15:c4:65"));
         (lit "network-type", PStr (lit "public"))].

Definition iface1 : pyval :=
  PDict [(lit "ipv4", PDict [(lit "additional", PList []);
                             (lit "address", PStr (lit "10.1.112.3"));
                             (lit "gateway", PStr []);
                             (lit "netmask", PStr (lit "255.255.240.0"))]);
         (lit "mac", PStr (lit "5a:00:03:1b:4e:ca"));
         (lit "network-type", PStr (lit "private"))].

Definition instance_doc (interfaces : list pyval) : pyval :=
  PDict [(lit "hostname", PStr (lit "CLOUDINIT_1"));
         (lit "instanceid", PStr (lit "42506325"));
         (lit "interfaces", PList interfaces)].

Definition INTERFACE_MAP : list (pystr * pystr) :=
  [(lit "56:00:03:15:c4:65", lit "eth0");
   (lit "56:00:03:1b:4e:ca", lit "eth0");
   (lit "5a:00:03:1b:4e:ca", lit "eth1")].

(** The service: the startup script and the root password are served at
    their paths, the text [v1] stands for the JSON document, every other
    field is empty. *)
Definition serve (script : pystr) (rq : request) : list N :=
  if Str.eqb (rq_url rq) (base ++ lit "/latest/startup-script") then script
  else if Str.eqb (rq_url rq) (base ++ lit "/v1/internal/root-password")
  then lit "hunter2"
  else if Str.eqb (rq_url rq) (base ++ lit "/v1.json") then lit "v1"
  else [].

Definition machine (script : pystr) (interfaces : list pyval)
    (nics : list (pystr * pystr)) : host :=
  mkHost (fun _ => Some (lit "QEMU"))
         (fun _ rq => Some (mkResponse 200 (serve script rq)))
         (fun bs => Some bs)
         (fun text => if Str.eqb text (lit "v1")
                      then Some (instance_doc interfaces) else None)
         (fun _ => None)
         (fun _ => nics).

(** A service that stops answering after [n] requests. *)
Definition flaky (n : nat) (script : pystr) (interfaces : list pyval)
    (nics : list (pystr * pystr)) : host :=
  mkHost (fun _ => Some (lit "QEMU"))
         (fun log rq => if (List.length log <? n)%nat
                        then Some (mkResponse 200 (serve script rq))
                        else None)
         (fun bs => Some bs)
         (fun text => if Str.eqb text (lit "v1")
                      then Some (instance_doc interfaces) else None)
         (fun _ => None)
         (fun _ => nics).

Definition boot (files : list (string * node)) : state :=
  mkState None None files [] 0.

End Fixture.

(** ** Requests and the endpoint rule *)

(** The request [read_metadata] sends for the settings [p]. *)
Definition request_of (p : params) : request :=
  mkRequest (url p) (timeout p) (retries p)
            [(lit "Metadata-Token", lit "vultr")] (wait p).

(** The field names [get_url] translates. *)
Definition fetchable (flag : pystr) : bool :=
  match dict_lookup flag API_MAP with
  | Some _ => true
  | None => contains (lit "app-") flag || contains (lit "md-") flag
  end.

(** The rule as the specification words it: the nine keys of the table, or a
    name that begins with [app-] or [md-]. *)
Definition fetchable_by_prefix (flag : pystr) : bool :=
  match dict_lookup flag API_MAP with
  | Some _ => true
  | None => starts_with (lit "app-") flag || starts_with (lit "md-") flag
  end.

(** The fields fetched one after the other, as the specification words the
    assembly of a bundle: the texts of the fetches that returned, up to the
    first one that raises. *)
Fixpoint fetch_fields (W : host) (p : params) (flags : list pystr)
  : M (list pystr) :=
  match flags with
  | [] => ret []
  | flag :: rest =>
      text <- fetch_metadata W flag p ;;
      texts <- fetch_fields W p rest ;;
      ret (text :: texts)
  end.

(** ** Fetches and the request log *)

(** What a fetch may do to the state: add requests to the log. *)
Definition only_logs (s s' : state) : Prop :=
  METADATA s' = METADATA s
  /\ MAC_TO_NICS s' = MAC_TO_NICS s
  /\ fs s' = fs s
  /\ nic_queries s' = nic_queries s
  /\ exists l, http_log s' = http_log s ++ l.

(** A computation that only adds to the request log. *)
Definition logs_only {A : Type} (c : M A) : Prop :=
  forall s, only_logs s (snd (c s)).

(** The request for the first field of a cycle. *)
Definition startup_request (p : params) : request :=
  request_of (mkParams (url p ++ lit "/latest/startup-script") (timeout p)
                       (retries p) (wait p)).

(** ** The mapping of the resolver *)

(** The mapping a call of [get_interface_name] works with: the cached one
    unless it is [None] or empty, and else what the system reports now. *)
Definition nic_map (W : host) (s : state) : list (pystr * pystr) :=
  match MAC_TO_NICS s with
  | Some (e :: m) => e :: m
  | _ => get_interfaces_by_mac W (nic_queries s)
  end.

(** The state after the lookup: the mapping is cached, and the query is
    counted when there was one. *)
Definition resolved (W : host) (s : state) : state :=
  if dict_falsy (MAC_TO_NICS s)
  then set_MAC_TO_NICS (get_interfaces_by_mac W (nic_queries s)) (count_query s)
  else s.

(** The answer for [mac] from the mapping [m]. *)
Definition lookup_mac (mac : pyval) (m : list (pystr * pystr))
  : result (option pystr) :=
  if negb (hashable mac) then inl TypeError
  else match mac with
       | PStr k => inr (dict_lookup k m)
       | _ => inr None
       end.

(** ** The documents of the specification *)

(** What the synthesis reads from one entry of the interface list. *)
Record descriptor : Type := mkDescriptor {
  d_mac : pystr;
  d_address : pyval;
  d_gateway : pyval;
  d_netmask : pyval
}.

(** An entry of the interface list that carries a MAC string and an ipv4
    block with address, gateway and netmask. *)
Definition describe (i : pyval) : option descriptor :=
  match getitem i (lit "mac"), getitem i (lit "ipv4") with
  | inr (PStr mac), inr ipv4 =>
      match getitem ipv4 (lit "address"), getitem ipv4 (lit "gateway"),
            getitem ipv4 (lit "netmask") with
      | inr a, inr g, inr n => Some (mkDescriptor mac a g n)
      | _, _, _ => None
      end
  | _, _ => None
  end.

(** The name the MAC of a valid entry resolves to, when it does. *)
Definition resolve (W : host) (s : state) (i : pyval) : option pystr :=
  match describe i with
  | Some d =>
      match dict_lookup (d_mac d) (nic_map W s) with
      | Some (c :: n) => Some (c :: n)
      | _ => None
      end
  | None => None
  end.

Definition resolvable (W : host) (s : state) (i : pyval) : bool :=
  match resolve W s i with Some _ => true | None => false end.

(** The blocks as the specification lists them. *)
Definition nameserver_block : pyval :=
  PDict [(lit "type", PStr (lit "nameserver"));
         (lit "address", PList [PStr (lit "108.61.10.10")])].

Definition static_subnet (fields : list (pystr * pyval)) : pyval :=
  PDict ((lit "type", PStr (lit "static"))
         :: (lit "control", PStr (lit "auto")) :: fields).

Definition dhcp6_subnet : pyval :=
  PDict [(lit "type", PStr (lit "dhcp6")); (lit "control", PStr (lit "auto"))].

Definition physical_block (name mac : pystr) (subnets : list pyval) : pyval :=
  PDict [(lit "name", PStr name);
         (lit "type", PStr (lit "physical"));
         (lit "mac_address", PStr mac);
         (lit "accept-ra", PInt 1);
         (lit "subnets", PList subnets)].

Definition primary_block (name : pystr) (d : descriptor) : pyval :=
  physical_block name (d_mac d)
    [static_subnet [(lit "address", d_address d);
                    (lit "gateway", d_gateway d);
                    (lit "netmask", d_netmask d)];
     dhcp6_subnet].

Definition secondary_block (name : pystr) (d : descriptor) : pyval :=
  physical_block name (d_mac d)
    [static_subnet [(lit "address", d_address d);
                    (lit "netmask", d_netmask d)]].

Definition network_document (blocks : list pyval) : pyval :=
  PDict [(lit "version", PInt 1); (lit "config", PList blocks)].

(** The physical blocks of an interface list: the first entry as primary,
    the second as secondary, nothing for the others. *)
Definition physical_blocks (W : host) (s : state) (ifs : list pyval)
  : option (list pyval) :=
  match ifs with
  | [] => Some []
  | i0 :: rest =>
      match describe i0, resolve W s i0 with
      | Some d0, Some n0 =>
          match rest with
          | [] => Some [primary_block n0 d0]
          | i1 :: _ =>
              match describe i1, resolve W s i1 with
              | Some d1, Some n1 =>
                  Some [primary_block n0 d0; secondary_block n1 d1]
              | _, _ => None
              end
          end
      | _, _ => None
      end
  end.

(** The subnets of the block at position [k] of a network document. *)
Definition subnets_of (doc : pyval) (k : nat) : result pyval :=
  match getitem doc (lit "config") with
  | inl e => inl e
  | inr blocks =>
      match getindex blocks k with
      | inl e => inl e
      | inr block => getitem block (lit "subnets")
      end
  end.

(** ** The requests of a fetch cycle *)

(** The requests of one full cycle of [get_metadata]: one per entry of the
    table, in the order of the dict display, which is the order of the
    table. *)
Definition cycle_requests (p : params) : list request :=
  map (fun kv => request_of (mkParams (url p ++ snd kv) (timeout p)
                                      (retries p) (wait p)))
      API_MAP.

(** A request sent on behalf of the settings [p]: the token header, the
    caller's timeout, retries and wait, a URL under the caller's base. *)
Definition sent_for (p : params) (rq : request) : bool :=
  starts_with (url p) (rq_url rq)
  && Z.eqb (rq_timeout rq) (timeout p)
  && Z.eqb (rq_retries rq) (retries p)
  && Z.eqb (rq_sec_between rq) (wait p)
  && match rq_headers rq with
     | [(k, v)] => Str.eqb k (lit "Metadata-Token") && Str.eqb v (lit "vultr")
     | _ => false
     end.

(** The text the service answers, with a status from 200 to 299, to the
    request for [path] under the base URL of [p], asked with an empty log. *)
Definition body (W : host) (p : params) (path : pystr) : option pystr :=
  match readurl W [] (request_of (mkParams (url p ++ path) (timeout p)
                                           (retries p) (wait p))) with
  | Some r => if ok r then bytes_decode W (contents r) else None
  | None => None
  end.

(** A service whose answers do not depend on what was asked before. *)
Definition stateless (W : host) : Prop :=
  forall log rq, readurl W log rq = readurl W [] rq.

(** No newline among the characters of [s]. *)
Definition one_line (s : pystr) : bool :=
  forallb (fun c => negb (N.eqb c Re.newline)) s.

(** The template of [generate_config] for the root password [rootpw] and the
    network document [network], as the dict display builds it. *)
Definition vendor_template (rootpw : pystr) (network : pyval) : pyval :=
  PDict [(lit "package_upgrade", PStr (lit "true"));
         (lit "disable_root", PInt 0);
         (lit "ssh_pwauth", PInt 1);
         (lit "chpasswd", PDict
            [(lit "expire", PBool false);
             (lit "list", PList [PStr (lit "root:" ++ rootpw)])]);
         (lit "system_info", PDict
            [(lit "default_user", PDict [(lit "name", PStr (lit "root"))])]);
         (lit "network", network)].

(** ** Sanity checks of the embedding *)

Example b64encode_foobar :
  b64encode (lit "foobar") = lit "Zm9vYmFy"
  /\ b64encode (lit "fooba") = lit "Zm9vYmE="
  /\ b64encode (lit "foob") = lit "Zm9vYg=="
  /\ b64encode [] = [].
Proof. repeat split; reflexivity. Qed.

Example sub_dotplus_root_cmdline :
  Re.sub_dotplus_root (lit "BOOT_IMAGE=/vmlinuz root=/dev/vda1 ro")
  = lit "/dev/vda1 ro".
Proof. reflexivity. Qed.

Example sub_dotplus_root_greedy :
  Re.sub_dotplus_root (lit "a root=b root=c") = lit "c"
  /\ Re.sub_dotplus_root (lit "root=x") = lit "root=x"
  /\ Re.sub_dotplus_root (lit "xroot=") = [].
Proof. repeat split; reflexivity. Qed.

Example sub_dotplus_root_lines :
  Re.sub_dotplus_root (lit "a root=b" ++ [Re.newline] ++ lit "c root=d")
  = lit "b" ++ [Re.newline] ++ lit "d".
Proof. reflexivity. Qed.

Example get_url_examples :
  get_url (lit "http://h") (lit "v1.json") = lit "http://h/v1.json"
  /\ get_url (lit "http://h") (lit "app-key") = lit "http://h/v1/internal/app-key"
  /\ get_url (lit "http://h") (lit "nothing") = [].
Proof. repeat split; reflexivity. Qed.

Example universal_newlines_mixed :
  universal_newlines (lit "a" ++ [13; 10] ++ lit "b" ++ [13] ++ lit "c"
                      ++ [10; 13])%N
  = (lit "a" ++ [10] ++ lit "b" ++ [10] ++ lit "c" ++ [10; 10])%N.
Proof. reflexivity. Qed.

(** ** Strings: basic facts *)

Lemma str_eqb_eq (a b : pystr) : Str.eqb a b = true <-> a = b.
Proof.
  revert b; induction a as [|x a IH]; intros [|y b]; simpl;
    try (split; [discriminate | discriminate]); try tauto.
  rewrite andb_true_iff, N.eqb_eq, IH.
  split; [intros [-> ->]; reflexivity | intros E; inversion E; auto].
Qed.

Lemma starts_with_contains (p s : pystr) :
  starts_with p s = true -> contains p s = true.
Proof.
  destruct s as [|y s]; simpl.
  - destruct p; [reflexivity | discriminate].
  - intros ->; reflexivity.
Qed.

(** A string of at most one character holds no five-letter word. *)
Lemma contains_vultr_short (r : pystr) :
  (List.length r <= 1)%nat -> contains (lit "vultr") r = false.
Proof.
  destruct r as [|c [|d r]]; simpl; intros H; try lia.
Qed.

Lemma strip_single (c : N) : strip [c] = [] \/ strip [c] = [c].
Proof.
  unfold strip; simpl.
  destruct (is_space c) eqn:E; simpl; [left; reflexivity|].
  rewrite E; right; reflexivity.
Qed.

(** ** Running computations *)

Lemma bind_ret {A B : Type} (a : A) (k : A -> M B) (s : state) :
  bind (ret a) k s = k a s.
Proof. reflexivity. Qed.

Lemma bind_raise {A B : Type} (e : exn) (k : A -> M B) (s : state) :
  bind (raise e) k s = (inl e, s).
Proof. reflexivity. Qed.

Lemma bind_gets {A B : Type} (f : state -> A) (k : A -> M B) (s : state) :
  bind (gets f) k s = k (f s) s.
Proof. reflexivity. Qed.

Lemma bind_modify {B : Type} (f : state -> state) (k : unit -> M B)
    (s : state) :
  bind (modify f) k s = k tt (f s).
Proof. reflexivity. Qed.

Lemma bind_lift_inr {A B : Type} (a : A) (k : A -> M B) (s : state) :
  bind (lift (inr a)) k s = k a s.
Proof. reflexivity. Qed.

Lemma bind_lift_inl {A B : Type} (e : exn) (k : A -> M B) (s : state) :
  bind (lift (inl e)) k s = (inl e, s).
Proof. reflexivity. Qed.

Lemma bind_run_inr {A B : Type} (c : M A) (k : A -> M B) (s s' : state)
    (a : A) :
  c s = (inr a, s') -> bind c k s = k a s'.
Proof. unfold bind; intros ->; reflexivity. Qed.

(** Runs the leading steps of a computation applied to a state. *)
Ltac run :=
  repeat (rewrite ?bind_ret, ?bind_raise, ?bind_gets, ?bind_modify,
            ?bind_lift_inr, ?bind_lift_inl; cbv beta).

(** ** Platform detection *)

Section PlatformDetector.

Variable W : host.

(** Whatever the command line holds, [get_kernel_parameters] hands back at
    most the one character it indexes, and leaves the state alone. *)
Lemma get_kernel_parameters_short (s s' : state) (r : pystr) :
  get_kernel_parameters s = (inr r, s') ->
  s' = s /\ (List.length r <= 1)%nat.
Proof.
  unfold get_kernel_parameters, path_exists; run.
  destruct (fs_lookup "/proc/cmdline" (fs s)) as [n|] eqn:En; cbn [negb];
    [|intros E; inversion E; subst; simpl; auto].
  unfold bind, read_file; rewrite En.
  destruct n as [c| |]; [|discriminate|discriminate].
  destruct (contains (lit "root=") (universal_newlines c)); cbn [negb];
    [|intros E; inversion E; subst; simpl; auto].
  destruct (nth_error (Re.sub_dotplus_root (universal_newlines c)) 1)
    as [ch|]; intros E; inversion E; subst.
  split; [reflexivity|].
  destruct (strip_single ch) as [-> | ->]; simpl; lia.
Qed.

(** The kernel command line never decides: [is_vultr] answers [True] only
    through the manufacturer string or the marker directory. *)
Lemma is_vultr_true_inv (s s' : state) :
  is_vultr W s = (inr true, s') ->
  manufacturer (get_sysinfo W) = Some (lit "Vultr")
  \/ fs_lookup "/etc/vultr" (fs s) = Some Dir.
Proof.
  unfold is_vultr.
  destruct (opt_str_eqb (manufacturer (get_sysinfo W)) (lit "Vultr")) eqn:Em.
  - intros _; left.
    destruct (manufacturer (get_sysinfo W)) as [m|]; [|discriminate].
    apply str_eqb_eq in Em; subst; reflexivity.
  - unfold bind at 1.
    destruct (get_kernel_parameters s) as [[e|kp] s1] eqn:Ek; [discriminate|].
    apply get_kernel_parameters_short in Ek as [-> Hlen].
    rewrite (contains_vultr_short _ Hlen).
    unfold path_exists, path_isdir, bind, gets, ret; cbv beta.
    destruct (fs_lookup "/etc/vultr" (fs s)) as [[c| |]|] eqn:El;
      cbv beta iota; rewrite ?El; intros E; inversion E; auto.
Qed.

End PlatformDetector.

(** C3 (code defect). The manufacturer is not Vultr, the marker directory is
    absent and the text after [root=] on the kernel command line holds the
    token [vultr]; [is_vultr] answers [False], because
    [get_kernel_parameters] keeps the single character at index 1 of that
    text. *)
Theorem is_vultr_misses_kernel_token :
  let cmdline := lit "console=ttyS0 root=LABEL=vultr ro" in
  let s := Fixture.boot [("/proc/cmdline"%string, File cmdline)] in
  let W := Fixture.machine [] [] [] in
  contains (lit "vultr") (Re.sub_dotplus_root cmdline) = true
  /\ get_kernel_parameters s = (inr (lit "A"), s)
  /\ is_vultr W s = (inr false, s).
Proof. repeat split; vm_compute; reflexivity. Qed.

(** C4 (code defect). With a command line whose text after [root=] has fewer
    than two characters, [is_vultr] raises IndexError instead of returning a
    boolean. *)
Theorem is_vultr_raises_IndexError :
  let s := Fixture.boot
             [("/proc/cmdline"%string, File (lit "console=ttyS0 root=/"))] in
  is_vultr (Fixture.machine [] [] []) s = (inl IndexError, s).
Proof. vm_compute; reflexivity. Qed.

(** ** The network cache store *)

(** C2 (code defect). Both cache functions start with [os.makedirs], and the
    module binds [path] but not [os]: for every document and every state the
    write raises NameError and leaves the file system untouched, and so does
    the read, whether or not a cache file exists. *)
Theorem cache_functions_raise_NameError (W : host) (config : pyval)
    (s : state) :
  cache_network_config W config s = (inl (NameError "os"), s)
  /\ get_cached_network_config s = (inl (NameError "os"), s).
Proof. split; reflexivity. Qed.

(** ** The metadata fetcher *)

Lemma app_not_nil (a b : pystr) : b <> [] -> Str.eqb (a ++ b) [] = false.
Proof. destruct a; destruct b; simpl; congruence. Qed.

Lemma API_MAP_suffix (flag suffix : pystr) :
  dict_lookup flag API_MAP = Some suffix -> suffix <> [].
Proof.
  unfold API_MAP; cbn [dict_lookup].
  repeat match goal with
         | |- (if ?b then _ else _) = _ -> _ =>
             destruct b; [intros E; inversion E; discriminate|]
         end.
  discriminate.
Qed.

Lemma get_url_nil (u flag : pystr) :
  Str.eqb (get_url u flag) [] = negb (fetchable flag).
Proof.
  unfold get_url, fetchable.
  destruct (dict_lookup flag API_MAP) as [suffix|] eqn:E.
  - apply app_not_nil; eapply API_MAP_suffix; eauto.
  - destruct (contains (lit "app-") flag || contains (lit "md-") flag);
      [|reflexivity].
    apply app_not_nil.
    change (lit "/v1/internal/") with (47%N :: lit "v1/internal/").
    discriminate.
Qed.

(** Every name the prefix rule accepts is translated by [get_url]. *)
Lemma fetchable_by_prefix_fetchable (flag : pystr) :
  fetchable_by_prefix flag = true -> fetchable flag = true.
Proof.
  unfold fetchable_by_prefix, fetchable.
  destruct (dict_lookup flag API_MAP); [reflexivity|].
  rewrite !orb_true_iff.
  intros [H|H]; [left | right]; apply starts_with_contains; exact H.
Qed.

Section Fetcher.

Variable W : host.

Lemma read_metadata_state (p : params) (s : state) :
  snd (read_metadata W p s) = log_request (request_of p) s.
Proof.
  unfold read_metadata, request_of.
  destruct (readurl W _ _) as [r|]; [|reflexivity].
  destruct (negb (ok r)); [reflexivity|].
  destruct (bytes_decode W _); reflexivity.
Qed.

(** The outcome of [read_metadata] in closed form. *)
Lemma read_metadata_run (p : params) (s : state) :
  read_metadata W p s
  = (match readurl W (http_log s) (request_of p) with
     | None => inl UrlError
     | Some r =>
         if negb (ok r) then inl TypeError
         else match bytes_decode W (contents r) with
              | Some text => inr text
              | None => inl UnicodeDecodeError
              end
     end, log_request (request_of p) s).
Proof.
  unfold read_metadata, request_of.
  destruct (readurl W _ _) as [r|]; [|reflexivity].
  destruct (negb (ok r)); [reflexivity|].
  destruct (bytes_decode W _); reflexivity.
Qed.

Lemma fetch_metadata_fetchable (flag : pystr) (p : params) (s : state) :
  fetchable flag = true ->
  fetch_metadata W flag p s
  = read_metadata W (mkParams (get_url (url p) flag) (timeout p) (retries p)
                              (wait p)) s.
Proof.
  intros H; unfold fetch_metadata; cbn [url].
  rewrite get_url_nil, H; reflexivity.
Qed.

Lemma fetch_metadata_unknown (flag : pystr) (p : params) (s : state) :
  fetchable flag = false ->
  fetch_metadata W flag p s = (inl RuntimeError, s).
Proof.
  intros H; unfold fetch_metadata; cbn [url].
  rewrite get_url_nil, H; reflexivity.
Qed.

End Fetcher.

(** C5 (as the code has it). The table has nine keys. A field name that is
    one of them, or that holds [app-] or [md-] anywhere, costs exactly one
    request, sent to the table's path or to [/v1/internal/{field}]; any other
    name raises RuntimeError with the state, and so the request log,
    unchanged. *)
Theorem fetch_metadata_request_rule (W : host) (flag : pystr) (p : params)
    (s : state) :
  List.length API_MAP = 9%nat
  /\ (if fetchable flag
      then
        snd (fetch_metadata W flag p s)
        = log_request
            (request_of (mkParams (get_url (url p) flag) (timeout p)
                                  (retries p) (wait p))) s
        /\ get_url (url p) flag
           = url p ++ match dict_lookup flag API_MAP with
                      | Some suffix => suffix
                      | None => lit "/v1/internal/" ++ flag
                      end
      else fetch_metadata W flag p s = (inl RuntimeError, s)).
Proof.
  split; [reflexivity|].
  destruct (fetchable flag) eqn:H.
  - rewrite fetch_metadata_fetchable by exact H.
    split; [apply read_metadata_state|].
    unfold get_url, fetchable in *.
    destruct (dict_lookup flag API_MAP); [reflexivity|].
    rewrite H; reflexivity.
  - apply fetch_metadata_unknown; exact H.
Qed.

(** C5, counterexample. [my-app-id] is not a key of the table and begins
    with neither [app-] nor [md-], and [fetch_metadata] sends a request for
    it. *)
Lemma fetch_metadata_infix_request :
  let flag := lit "my-app-id" in
  fetchable_by_prefix flag = false
  /\ http_log (snd (fetch_metadata (Fixture.machine [] [] []) flag
                      Fixture.config (Fixture.boot [])))
     = [mkRequest (Fixture.base ++ lit "/v1/internal/my-app-id") 10 3
                  [(lit "Metadata-Token", lit "vultr")] 1].
Proof. split; vm_compute; reflexivity. Qed.

(** ** The memoized bundle *)

Lemma only_logs_refl (s : state) : only_logs s s.
Proof.
  repeat split; exists []; rewrite app_nil_r; reflexivity.
Qed.

Lemma only_logs_trans (a b c : state) :
  only_logs a b -> only_logs b c -> only_logs a c.
Proof.
  intros (M1 & N1 & F1 & Q1 & l1 & L1) (M2 & N2 & F2 & Q2 & l2 & L2).
  repeat split; try congruence.
  exists (l1 ++ l2); rewrite L2, L1, app_assoc; reflexivity.
Qed.

Lemma only_logs_log_request (rq : request) (s : state) :
  only_logs s (log_request rq s).
Proof. repeat split; exists [rq]; reflexivity. Qed.

Lemma logs_only_bind {A B : Type} (c : M A) (k : A -> M B) :
  logs_only c -> (forall a, logs_only (k a)) -> logs_only (bind c k).
Proof.
  intros Hc Hk s; unfold bind.
  specialize (Hc s); destruct (c s) as [[e|a] s1]; simpl in *; [exact Hc|].
  eapply only_logs_trans; [exact Hc | apply Hk].
Qed.

Lemma logs_only_ret {A : Type} (a : A) : logs_only (ret a).
Proof. intros s; apply only_logs_refl. Qed.

Lemma logs_only_raise {A : Type} (e : exn) : logs_only (@raise A e).
Proof. intros s; apply only_logs_refl. Qed.

Section Memo.

Variable W : host.

Lemma logs_only_fetch_metadata (flag : pystr) (p : params) :
  logs_only (fetch_metadata W flag p).
Proof.
  intros s; destruct (fetchable flag) eqn:H.
  - rewrite fetch_metadata_fetchable by exact H.
    rewrite read_metadata_state; apply only_logs_log_request.
  - rewrite fetch_metadata_unknown by exact H; apply only_logs_refl.
Qed.

Lemma logs_only_fetch_cycle (p : params) : logs_only (fetch_cycle W p).
Proof.
  unfold fetch_cycle.
  repeat (apply logs_only_bind; [apply logs_only_fetch_metadata | intros ?]).
  destruct (json_loads W _); [apply logs_only_ret | apply logs_only_raise].
Qed.

(** A fetch cycle opens with the request for the startup script. *)
Lemma fetch_cycle_first_request (p : params) (s : state) :
  exists rest,
    http_log (snd (fetch_cycle W p s))
    = http_log s ++ startup_request p :: rest.
Proof.
  unfold fetch_cycle.
  set (k := fun a : pystr => _).
  assert (Hk : forall a, logs_only (k a)).
  { intros a; unfold k.
    repeat (apply logs_only_bind; [apply logs_only_fetch_metadata | intros ?]).
    destruct (json_loads W _); [apply logs_only_ret | apply logs_only_raise]. }
  unfold bind.
  pose proof (read_metadata_state W
    (mkParams (url p ++ lit "/latest/startup-script") (timeout p) (retries p)
              (wait p)) s) as Hs.
  rewrite (fetch_metadata_fetchable W (lit "startup-script") p s eq_refl).
  change (get_url (url p) (lit "startup-script"))
    with (url p ++ lit "/latest/startup-script").
  destruct (read_metadata W _ s) as [[e|a] s1]; simpl in Hs; subst s1.
  - exists []; reflexivity.
  - destruct (Hk a (log_request (startup_request p) s))
      as (_ & _ & _ & _ & l & Hl).
    exists l; fold (startup_request p); rewrite Hl; simpl.
    rewrite <- app_assoc; reflexivity.
Qed.

Lemma get_metadata_cached (p : params) (s : state) (md : bundle) :
  METADATA s = Some md -> get_metadata W p s = (inr md, s).
Proof. intros H; unfold get_metadata; run; rewrite H; reflexivity. Qed.

Lemma get_metadata_fresh (p : params) (s : state) :
  METADATA s = None ->
  get_metadata W p s
  = match fetch_cycle W p s with
    | (inr md, s1) => (inr md, set_METADATA md s1)
    | (inl e, s1) => (inl e, s1)
    end.
Proof.
  intros H; unfold get_metadata; run; rewrite H.
  unfold bind; destruct (fetch_cycle W p s) as [[e|md] s1]; reflexivity.
Qed.

End Memo.

Section Assembly.

Variable W : host.

Lemma fetch_fields_length (p : params) (flags texts : list pystr)
    (s s' : state) :
  fetch_fields W p flags s = (inr texts, s') ->
  List.length texts = List.length flags.
Proof.
  revert texts s s'; induction flags as [|flag rest IH]; intros texts s s'.
  - intros E; inversion E; reflexivity.
  - cbn [fetch_fields]; unfold bind at 1.
    destruct (fetch_metadata W flag p s) as [[e|text] s1]; [discriminate|].
    unfold bind at 1.
    destruct (fetch_fields W p rest s1) as [[e|more] s2] eqn:Hrest;
      [discriminate|].
    intros E; inversion E; subst; simpl.
    rewrite (IH _ _ _ Hrest); reflexivity.
Qed.

(** The fetches stop at the first one that raises. *)
Lemma fetch_fields_raise (p : params) (before after : list pystr)
    (flag : pystr) (texts : list pystr) (s s1 s2 : state) (e : exn) :
  fetch_fields W p before s = (inr texts, s1) ->
  fetch_metadata W flag p s1 = (inl e, s2) ->
  fetch_fields W p (before ++ flag :: after) s = (inl e, s2).
Proof.
  revert texts s; induction before as [|f before IH]; intros texts s.
  - intros E; inversion E; subst; intros Hf.
    cbn [app fetch_fields]; unfold bind at 1; rewrite Hf; reflexivity.
  - intros Hrun Hf; revert Hrun.
    cbn [app fetch_fields]; unfold bind at 1 3.
    destruct (fetch_metadata W f p s) as [[e0|text] s0]; [discriminate|].
    unfold bind at 1.
    destruct (fetch_fields W p before s0) as [[e0|more] s0'] eqn:Hb;
      [discriminate|].
    intros E; inversion E; subst.
    unfold bind at 1.
    rewrite (IH _ _ Hb Hf); reflexivity.
Qed.

(** The dict display of [get_metadata] is the nine fetches in the order of
    the table, then [json.loads] on the last text. *)
Lemma fetch_cycle_fields (p : params) (s : state) :
  fetch_cycle W p s
  = match fetch_fields W p (map fst API_MAP) s with
    | (inl e, s1) => (inl e, s1)
    | (inr [a; b; c; d; e; f; g; h; j], s1) =>
        match json_loads W j with
        | Some doc => (inr (mkBundle a b c d e f g h doc), s1)
        | None => (inl JSONDecodeError, s1)
        end
    | (inr _, s1) => (inl TypeError, s1)
    end.
Proof.
  unfold fetch_cycle; cbn [map fst API_MAP fetch_fields].
  unfold bind.
  repeat match goal with
         | |- context [fetch_metadata W ?f p ?st] =>
             is_var st;
             destruct (fetch_metadata W f p st) as [[?|?] ?]; [reflexivity|]
         end.
  cbn [ret]; destruct (json_loads W _); reflexivity.
Qed.

End Assembly.

Lemma API_MAP_fetchable (flag : pystr) :
  In flag (map fst API_MAP) -> fetchable flag = true.
Proof.
  cbn [map fst API_MAP In].
  intros H.
  repeat match goal with
         | H : _ \/ _ |- _ => destruct H as [H|H]
         | H : False |- _ => destruct H
         end; subst flag; reflexivity.
Qed.

(** C6. A call of [get_metadata] that returns a bundle leaves it in
    [METADATA], and every later call, whatever its settings, returns that
    bundle with the state, and so the request log, unchanged. A call that
    raises leaves [METADATA] empty, and every later call opens a fetch cycle
    again, with the request for the first field. From an empty [METADATA]:
    when one of the nine fetches raises, the ones before it having returned,
    [get_metadata] raises that exception and [METADATA] stays empty; when
    the nine fetches return and [json.loads] fails on the last text,
    [get_metadata] raises and [METADATA] stays empty; and only when the nine
    fetches return and the last text is decoded is a bundle returned and
    cached, the bundle of these nine values. A fetch of one of the nine keys
    returns exactly when the service answers its request with a status from
    200 to 299 and a body that decodes. *)
Theorem get_metadata_memoized (W : host) (p : params) (s : state) :
  match get_metadata W p s with
  | (inr md, s') =>
      METADATA s' = Some md
      /\ forall p', get_metadata W p' s' = (inr md, s')
  | (inl e, s') =>
      METADATA s' = None
      /\ forall p', exists rest,
           get_metadata W p' s'
           = match fetch_cycle W p' s' with
             | (inr md, s1) => (inr md, set_METADATA md s1)
             | (inl e', s1) => (inl e', s1)
             end
           /\ http_log (snd (get_metadata W p' s'))
              = http_log s' ++ startup_request p' :: rest
  end
  /\ (METADATA s = None ->
      (forall before flag after texts s1 e s2,
          map fst API_MAP = before ++ flag :: after ->
          fetch_fields W p before s = (inr texts, s1) ->
          fetch_metadata W flag p s1 = (inl e, s2) ->
          get_metadata W p s = (inl e, s2) /\ METADATA s2 = None)
      /\ (forall texts s1,
            fetch_fields W p (map fst API_MAP) s = (inr texts, s1) ->
            exists a b c d e f g h j,
              texts = [a; b; c; d; e; f; g; h; j]
              /\ match json_loads W j with
                 | Some doc =>
                     get_metadata W p s
                     = (inr (mkBundle a b c d e f g h doc),
                        set_METADATA (mkBundle a b c d e f g h doc) s1)
                 | None =>
                     get_metadata W p s = (inl JSONDecodeError, s1)
                     /\ METADATA s1 = None
                 end))
  /\ (forall flag s1 text,
        In flag (map fst API_MAP) ->
        (fst (fetch_metadata W flag p s1) = inr text
         <-> exists r,
               readurl W (http_log s1)
                 (request_of (mkParams (get_url (url p) flag) (timeout p)
                                       (retries p) (wait p))) = Some r
               /\ ok r = true
               /\ bytes_decode W (contents r) = Some text)).
Proof.
  split; [|split]; cycle 2.
  { intros flag s1 text Hin.
    rewrite (fetch_metadata_fetchable W flag p s1 (API_MAP_fetchable flag Hin)).
    rewrite read_metadata_run; cbn [fst].
    destruct (readurl W (http_log s1) _) as [r|].
    - destruct (ok r) eqn:Hok; cbn [negb].
      + destruct (bytes_decode W (contents r)) as [t|] eqn:Hd.
        * split; [intros E; inversion E; subst; exists r; auto|].
          intros (r' & Hr & _ & Hd'); inversion Hr; subst r'.
          rewrite Hd in Hd'; inversion Hd'; reflexivity.
        * split; [discriminate|].
          intros (r' & Hr & _ & Hd'); inversion Hr; subst r'.
          rewrite Hd in Hd'; discriminate.
      + split; [discriminate|].
        intros (r' & Hr & Hok' & _); inversion Hr; subst r'.
        rewrite Hok in Hok'; discriminate.
    - split; [discriminate | intros (r' & Hr & _); discriminate]. }
  - destruct (METADATA s) as [md|] eqn:Hm.
    + rewrite (get_metadata_cached W p s md Hm).
      split; [exact Hm|].
      intros p'; apply get_metadata_cached; exact Hm.
    + rewrite (get_metadata_fresh W p s Hm).
      pose proof (logs_only_fetch_cycle W p s) as (Hmd & _).
      destruct (fetch_cycle W p s) as [[e|md] s1]; simpl in Hmd.
      * assert (Hn : METADATA s1 = None) by congruence.
        split; [exact Hn|].
        intros p'.
        destruct (fetch_cycle_first_request W p' s1) as (rest & Hrest).
        rewrite (get_metadata_fresh W p' s1 Hn).
        destruct (fetch_cycle W p' s1) as [[e'|md'] s2]; simpl in *;
          exists rest; split; auto.
      * split; [reflexivity|].
        intros p'; apply get_metadata_cached; reflexivity.
  - intros Hm.
    pose proof (logs_only_fetch_cycle W p s) as (Hmd & _).
    rewrite (get_metadata_fresh W p s Hm).
    rewrite fetch_cycle_fields in *.
    split.
    + intros before flag after texts s1 e s2 Hkeys Hbefore Hflag.
      rewrite Hkeys in *.
      rewrite (fetch_fields_raise W p before after flag texts s s1 s2 e
                 Hbefore Hflag) in *.
      simpl in Hmd; split; [reflexivity | congruence].
    + intros texts s1 Hall.
      pose proof (fetch_fields_length W p _ _ _ _ Hall) as Hlen.
      rewrite Hall in *.
      destruct texts as [|a [|b [|c [|d [|e [|f [|g [|h [|j [|x texts]]]]]]]]]];
        try discriminate.
      exists a, b, c, d, e, f, g, h, j; split; [reflexivity|].
      destruct (json_loads W j); [reflexivity|].
      simpl in Hmd; split; [reflexivity | congruence].
Qed.

(** The service answers four requests and then fails: the four fetches
    before [root-password] return, that fetch raises, and so does
    [get_metadata], with nothing cached. *)
Lemma get_metadata_memoized_witness :
  let W := Fixture.flaky 4 [] [] [] in
  let s := Fixture.boot [] in
  METADATA s = None
  /\ fst (fetch_fields W Fixture.config
            [lit "startup-script"; lit "hostname"; lit "user-data";
             lit "mdisk-mode"] s) = inr [[]; []; []; []]
  /\ fst (get_metadata W Fixture.config s) = inl UrlError
  /\ METADATA (snd (get_metadata W Fixture.config s)) = None.
Proof.
  intros W s.
  assert (Hb : fetch_fields W Fixture.config
                 [lit "startup-script"; lit "hostname"; lit "user-data";
                  lit "mdisk-mode"] s
               = (inr [[]; []; []; []],
                  snd (fetch_fields W Fixture.config
                         [lit "startup-script"; lit "hostname";
                          lit "user-data"; lit "mdisk-mode"] s)))
    by (vm_compute; reflexivity).
  assert (Hf : fetch_metadata W (lit "root-password") Fixture.config
                 (snd (fetch_fields W Fixture.config
                         [lit "startup-script"; lit "hostname";
                          lit "user-data"; lit "mdisk-mode"] s))
               = (inl UrlError, snd (get_metadata W Fixture.config s)))
    by (vm_compute; reflexivity).
  destruct (get_metadata_memoized W Fixture.config s) as (_ & Hfail & _).
  destruct (Hfail eq_refl) as (Hraise & _).
  destruct (Hraise [lit "startup-script"; lit "hostname"; lit "user-data";
                    lit "mdisk-mode"]
              (lit "root-password")
              [lit "ssh-keys"; lit "ipv6-dns1"; lit "ipv6-addr";
               lit "v1.json"] _ _ _ _ eq_refl Hb Hf) as (Hrun & Hnone).
  split; [reflexivity|].
  split; [rewrite Hb; reflexivity|].
  split; [rewrite Hrun; reflexivity | rewrite Hrun; exact Hnone].
Defined.

(** The service answers four requests and then fails: the fifth fetch
    raises, nothing is cached, and the next call asks again from the first
    field on. *)
Example get_metadata_partial_not_cached :
  let W := Fixture.flaky 4 [] [] [] in
  let '(r, s1) := get_metadata W Fixture.config (Fixture.boot []) in
  let '(r', s2) := get_metadata W Fixture.config s1 in
  r = inl UrlError /\ METADATA s1 = None /\ List.length (http_log s1) = 5%nat
  /\ r' = inl UrlError /\ List.length (http_log s2) = 6%nat.
Proof. vm_compute; repeat split; reflexivity. Qed.

(** The service answers every request: the bundle is assembled with nine
    requests and the second call adds none. *)
Example get_metadata_cached_run :
  let W := Fixture.machine (lit "echo hi") [] [] in
  let '(r, s1) := get_metadata W Fixture.config (Fixture.boot []) in
  let '(r', s2) := get_metadata W Fixture.config s1 in
  r = r' /\ s1 = s2 /\ List.length (http_log s1) = 9%nat
  /\ option_map startup_script (METADATA s1) = Some (lit "echo hi").
Proof. vm_compute; repeat split; reflexivity. Qed.

(** ** The interface resolver *)

Section Resolver.

Variable W : host.

Lemma get_interface_name_run (mac : pyval) (s : state) :
  get_interface_name W mac s = (lookup_mac mac (nic_map W s), resolved W s).
Proof.
  unfold get_interface_name, nic_map, resolved, lookup_mac; run.
  destruct (MAC_TO_NICS s) as [[|e m]|] eqn:E; cbn [dict_falsy]; run;
    cbn [MAC_TO_NICS set_MAC_TO_NICS count_query]; try rewrite E;
    destruct (negb (hashable mac)); try reflexivity;
    destruct mac; reflexivity.
Qed.

(** Once a non-empty mapping is cached, a lookup changes nothing. *)
Lemma resolved_stable (s : state) :
  nic_map W s <> [] ->
  nic_map W (resolved W s) = nic_map W s
  /\ resolved W (resolved W s) = resolved W s.
Proof.
  unfold nic_map, resolved.
  destruct (MAC_TO_NICS s) as [[|e m]|] eqn:E; cbn [dict_falsy];
    try (rewrite E; cbn [dict_falsy]; auto; fail);
    cbn [MAC_TO_NICS set_MAC_TO_NICS count_query];
    destruct (get_interfaces_by_mac W (nic_queries s)); intros H;
    try congruence; cbn [dict_falsy]; auto.
Qed.

End Resolver.

(** C9 (as the code has it). When the mapping the first call works with is
    not empty, two calls in a row with the same MAC return the same result,
    the second one changes nothing, the system is asked at most once, and
    from then on no call, for any MAC, changes the state. *)
Theorem get_interface_name_twice (W : host) (mac : pyval) (s : state) :
  nic_map W s <> [] ->
  let '(r1, s1) := get_interface_name W mac s in
  let '(r2, s2) := get_interface_name W mac s1 in
  r1 = r2 /\ s2 = s1
  /\ (nic_queries s2 <= S (nic_queries s))%nat
  /\ MAC_TO_NICS s2 = Some (nic_map W s)
  /\ forall mac', snd (get_interface_name W mac' s2) = s2.
Proof.
  intros H.
  rewrite !get_interface_name_run.
  destruct (resolved_stable W s H) as (Hm & Hs).
  rewrite Hm, Hs.
  repeat split.
  - unfold resolved; destruct (dict_falsy (MAC_TO_NICS s)); simpl; lia.
  - revert H; unfold nic_map, resolved.
    destruct (MAC_TO_NICS s) as [[|e m]|] eqn:E; cbn [dict_falsy]; auto.
  - intros mac'; rewrite get_interface_name_run; exact Hs.
Qed.

Lemma get_interface_name_twice_witness :
  let W := Fixture.machine [] [] Fixture.INTERFACE_MAP in
  let mac := PStr (lit "5a:00:03:1b:4e:ca") in
  let s := Fixture.boot [] in
  nic_map W s <> []
  /\ fst (get_interface_name W mac s) = inr (Some (lit "eth1"))
  /\ let '(r1, s1) := get_interface_name W mac s in
     let '(r2, s2) := get_interface_name W mac s1 in
     r1 = r2 /\ s2 = s1
     /\ (nic_queries s2 <= S (nic_queries s))%nat
     /\ MAC_TO_NICS s2 = Some (nic_map W s)
     /\ forall mac', snd (get_interface_name W mac' s2) = s2.
Proof.
  intros W mac s.
  assert (H : nic_map W s <> []) by (vm_compute; discriminate).
  split; [exact H|].
  split; [vm_compute; reflexivity|].
  exact (get_interface_name_twice W mac s H).
Defined.

(** C9, counterexample. On a machine that reports no interface the empty
    mapping counts as not built: two calls in a row ask the system twice. *)
Lemma get_interface_name_asks_twice :
  let W := Fixture.machine [] [] [] in
  let mac := PStr (lit "56:00:03:15:c4:65") in
  let '(r1, s1) := get_interface_name W mac (Fixture.boot []) in
  let '(r2, s2) := get_interface_name W mac s1 in
  r1 = inr None /\ r2 = inr None
  /\ nic_queries s1 = 1%nat /\ nic_queries s2 = 2%nat.
Proof. vm_compute; repeat split; reflexivity. Qed.

(** ** The network synthesizer *)

Lemma primary_netcfg_describe (name : pystr) (i : pyval) (d : descriptor) :
  describe i = Some d -> primary_netcfg name i = inr (primary_block name d).
Proof.
  unfold describe, primary_netcfg.
  destruct (getitem i (lit "mac")) as [e|[]]; try discriminate.
  destruct (getitem i (lit "ipv4")) as [e|ipv4]; try discriminate.
  destruct (getitem ipv4 (lit "address")) as [e|a]; try discriminate.
  destruct (getitem ipv4 (lit "gateway")) as [e|g]; try discriminate.
  destruct (getitem ipv4 (lit "netmask")) as [e|n]; try discriminate.
  intros E; inversion E; reflexivity.
Qed.

Lemma secondary_netcfg_describe (name : pystr) (i : pyval) (d : descriptor) :
  describe i = Some d ->
  secondary_netcfg name i = inr (secondary_block name d).
Proof.
  unfold describe, secondary_netcfg.
  destruct (getitem i (lit "mac")) as [e|[]]; try discriminate.
  destruct (getitem i (lit "ipv4")) as [e|ipv4]; try discriminate.
  destruct (getitem ipv4 (lit "address")) as [e|a]; try discriminate.
  destruct (getitem ipv4 (lit "gateway")) as [e|g]; try discriminate.
  destruct (getitem ipv4 (lit "netmask")) as [e|n]; try discriminate.
  intros E; inversion E; reflexivity.
Qed.

Lemma describe_mac (i : pyval) (d : descriptor) :
  describe i = Some d -> getitem i (lit "mac") = inr (PStr (d_mac d)).
Proof.
  unfold describe.
  destruct (getitem i (lit "mac")) as [e|[]]; try discriminate.
  destruct (getitem i (lit "ipv4")) as [e|ipv4]; try discriminate.
  destruct (getitem ipv4 (lit "address")) as [e|a]; try discriminate.
  destruct (getitem ipv4 (lit "gateway")) as [e|g]; try discriminate.
  destruct (getitem ipv4 (lit "netmask")) as [e|n]; try discriminate.
  intros E; inversion E; reflexivity.
Qed.

Lemma append_config (blocks : list pyval) (b : pyval) :
  append_at (network_document blocks) (lit "config") b
  = inr (network_document (blocks ++ [b])).
Proof. reflexivity. Qed.

Section Synthesizer.

Variable W : host.

Lemma resolve_inv (s : state) (i : pyval) (name : pystr) :
  resolve W s i = Some name ->
  exists d, describe i = Some d
            /\ dict_lookup (d_mac d) (nic_map W s) = Some name
            /\ str_falsy (Some name) = false
            /\ nic_map W s <> [].
Proof.
  unfold resolve.
  destruct (describe i) as [d|]; [|discriminate].
  destruct (dict_lookup (d_mac d) (nic_map W s)) as [[|c n]|] eqn:E;
    try discriminate.
  intros H; inversion H; subst.
  exists d; repeat split; auto.
  intros Hnil; rewrite Hnil in E; discriminate.
Qed.

(** One block of the synthesis, for an entry that resolves. *)
Lemma interface_block_resolved (md : bundle) (k : nat)
    (netcfg : pystr -> pyval -> result pyval) (ifs blocks : list pyval)
    (i b : pyval) (name : pystr) (s : state) :
  getitem (v1 md) (lit "interfaces") = inr (PList ifs) ->
  nth_error ifs k = Some i ->
  resolve W s i = Some name ->
  netcfg name i = inr b ->
  interface_block W md k netcfg (network_document blocks) s
  = (inr (network_document (blocks ++ [b])), resolved W s).
Proof.
  intros Hifs Hk Hres Hcfg.
  destruct (resolve_inv s i name Hres) as (d & Hd & Hlook & Htruthy & _).
  unfold interface_block.
  rewrite Hifs; run; cbn [py_len]; run.
  assert (Hlt : (k <? List.length ifs)%nat = true).
  { apply Nat.ltb_lt, nth_error_Some; congruence. }
  rewrite Hlt; cbn [getindex]; rewrite Hk; run.
  rewrite (describe_mac i d Hd); run.
  unfold bind at 1; rewrite get_interface_name_run.
  unfold lookup_mac; cbn [hashable negb]; rewrite Hlook, Htruthy.
  run; rewrite Hcfg; run.
  rewrite append_config; reflexivity.
Qed.

(** A block whose index is past the end of the list adds nothing. *)
Lemma interface_block_absent (md : bundle) (k : nat)
    (netcfg : pystr -> pyval -> result pyval) (ifs : list pyval)
    (network : pyval) (s : state) :
  getitem (v1 md) (lit "interfaces") = inr (PList ifs) ->
  (List.length ifs <= k)%nat ->
  interface_block W md k netcfg network s = (inr network, s).
Proof.
  intros Hifs Hk; unfold interface_block.
  rewrite Hifs; run; cbn [py_len]; run.
  apply Nat.ltb_ge in Hk; rewrite Hk; reflexivity.
Qed.

(** The run of [generate_network_config] on a bundle whose first two
    interfaces resolve. *)
Lemma generate_network_config_run (config : params) (s s0 : state)
    (md : bundle) (ifs blocks : list pyval) :
  get_metadata W config s = (inr md, s0) ->
  getitem (v1 md) (lit "interfaces") = inr (PList ifs) ->
  physical_blocks W s0 ifs = Some blocks ->
  generate_network_config W config s
  = (inr (network_document (nameserver_block :: blocks)),
     match ifs with [] => s0 | _ :: _ => resolved W s0 end).
Proof.
  intros Hget Hifs Hblocks.
  unfold generate_network_config.
  rewrite (bind_run_inr _ _ _ _ _ Hget).
  fold nameserver_block; fold (network_document [nameserver_block]).
  destruct ifs as [|i0 rest].
  - inversion Hblocks; subst.
    rewrite (bind_run_inr _ _ _ _ _
               (interface_block_absent md 0 _ [] _ s0 Hifs (le_n 0))).
    rewrite (bind_run_inr _ _ _ _ _
               (interface_block_absent md 1 _ [] _ s0 Hifs (le_S _ _ (le_n 0)))).
    reflexivity.
  - cbn [physical_blocks] in Hblocks.
    destruct (describe i0) as [d0|] eqn:Hd0; [|discriminate].
    destruct (resolve W s0 i0) as [n0|] eqn:Hr0; [|discriminate].
    rewrite (bind_run_inr _ _ _ _ _
               (interface_block_resolved md 0 primary_netcfg (i0 :: rest)
                  [nameserver_block] i0 _ n0 s0 Hifs eq_refl Hr0
                  (primary_netcfg_describe n0 i0 d0 Hd0))).
    destruct rest as [|i1 rest].
    + inversion Hblocks; subst.
      rewrite (bind_run_inr _ _ _ _ _
                 (interface_block_absent md 1 _ [i0] _ _ Hifs (le_n 1))).
      reflexivity.
    + destruct (describe i1) as [d1|] eqn:Hd1; [|discriminate].
      destruct (resolve W s0 i1) as [n1|] eqn:Hr1; [|discriminate].
      inversion Hblocks; subst.
      destruct (resolve_inv s0 i0 n0 Hr0) as (_ & _ & _ & _ & Hne).
      destruct (resolved_stable W s0 Hne) as (Hm & Hs).
      assert (Hr1' : resolve W (resolved W s0) i1 = Some n1).
      { unfold resolve in *; rewrite Hm; exact Hr1. }
      rewrite (bind_run_inr _ _ _ _ _
                 (interface_block_resolved md 1 secondary_netcfg
                    (i0 :: i1 :: rest) _ i1 _ n1 _ Hifs eq_refl Hr1'
                    (secondary_netcfg_describe n1 i1 d1 Hd1))).
      rewrite Hs; reflexivity.
Qed.

(** When every entry resolves, the physical blocks are defined. *)
Lemma physical_blocks_defined (s : state) (ifs : list pyval) :
  Forall (fun i => resolvable W s i = true) ifs ->
  exists blocks, physical_blocks W s ifs = Some blocks
                 /\ List.length blocks = Nat.min 2 (List.length ifs).
Proof.
  intros H.
  assert (Hone : forall i, resolvable W s i = true ->
            exists d n, describe i = Some d /\ resolve W s i = Some n).
  { intros i; unfold resolvable.
    destruct (resolve W s i) as [n|] eqn:E; [|discriminate].
    intros _; destruct (resolve_inv s i n E) as (d & Hd & _).
    exists d, n; auto. }
  destruct ifs as [|i0 [|i1 rest]]; cbn [physical_blocks].
  - exists []; auto.
  - inversion H as [|? ? H0 _]; subst.
    destruct (Hone i0 H0) as (d0 & n0 & -> & ->).
    eexists; split; reflexivity.
  - inversion H as [|? ? H0 H']; subst.
    inversion H' as [|? ? H1 _]; subst.
    destruct (Hone i0 H0) as (d0 & n0 & -> & ->).
    destruct (Hone i1 H1) as (d1 & n1 & -> & ->).
    eexists; split; reflexivity.
Qed.

End Synthesizer.

(** C7. For a bundle whose interface entries all resolve,
    [generate_network_config] returns the document whose block list is the
    nameserver block for 108.61.10.10, then the primary block of entry 0 when
    there is one, then the secondary block of entry 1 when there is one, and
    nothing else: the list has one block more than the smaller of 2 and the
    number of entries. *)
Theorem generate_network_config_blocks (W : host) (config : params)
    (s s0 : state) (md : bundle) (ifs : list pyval) :
  get_metadata W config s = (inr md, s0) ->
  getitem (v1 md) (lit "interfaces") = inr (PList ifs) ->
  Forall (fun i => resolvable W s0 i = true) ifs ->
  exists blocks s',
    generate_network_config W config s
    = (inr (PDict [(lit "version", PInt 1);
                   (lit "config", PList
                      (PDict [(lit "type", PStr (lit "nameserver"));
                              (lit "address",
                               PList [PStr (lit "108.61.10.10")])]
                       :: blocks))]), s')
    /\ match ifs with
       | [] => blocks = []
       | i0 :: rest =>
           exists d0 n0,
             describe i0 = Some d0 /\ resolve W s0 i0 = Some n0
             /\ match rest with
                | [] => blocks = [primary_block n0 d0]
                | i1 :: _ =>
                    exists d1 n1,
                      describe i1 = Some d1 /\ resolve W s0 i1 = Some n1
                      /\ blocks = [primary_block n0 d0; secondary_block n1 d1]
                end
       end
    /\ List.length blocks = Nat.min 2 (List.length ifs).
Proof.
  intros Hget Hifs Hall.
  destruct (physical_blocks_defined W s0 ifs Hall) as (blocks & Hb & Hlen).
  exists blocks, (match ifs with [] => s0 | _ :: _ => resolved W s0 end).
  split; [exact (generate_network_config_run W config s s0 md ifs blocks
                   Hget Hifs Hb)|].
  split; [|exact Hlen].
  destruct ifs as [|i0 rest]; cbn [physical_blocks] in Hb.
  - inversion Hb; reflexivity.
  - destruct (describe i0) as [d0|]; [|discriminate].
    destruct (resolve W s0 i0) as [n0|]; [|discriminate].
    exists d0, n0; repeat split.
    destruct rest as [|i1 rest].
    + inversion Hb; reflexivity.
    + destruct (describe i1) as [d1|]; [|discriminate].
      destruct (resolve W s0 i1) as [n1|]; [|discriminate].
      exists d1, n1; repeat split.
      inversion Hb; reflexivity.
Qed.

(** Three interfaces on the machine of the tests: the third adds no block. *)
Lemma generate_network_config_blocks_witness :
  let W := Fixture.machine []
             [Fixture.iface0; Fixture.iface1; Fixture.iface0]
             Fixture.INTERFACE_MAP in
  exists blocks s',
    fst (generate_network_config W Fixture.config (Fixture.boot []))
    = inr (network_document (nameserver_block :: blocks))
    /\ generate_network_config W Fixture.config (Fixture.boot [])
       = (inr (network_document (nameserver_block :: blocks)), s')
    /\ List.length blocks = 2%nat.
Proof.
  intros W.
  destruct (generate_network_config_blocks W Fixture.config (Fixture.boot [])
              (snd (get_metadata W Fixture.config (Fixture.boot [])))
              (mkBundle [] [] [] [] (lit "hunter2") [] [] []
                 (Fixture.instance_doc
                    [Fixture.iface0; Fixture.iface1; Fixture.iface0]))
              [Fixture.iface0; Fixture.iface1; Fixture.iface0])
    as (blocks & s' & Hrun & _ & Hlen).
  - vm_compute; reflexivity.
  - reflexivity.
  - repeat constructor.
  - exists blocks, s'; split; [rewrite Hrun; reflexivity|].
    split; [exact Hrun | exact Hlen].
Defined.

(** A sequence that returns has returned from its first part. *)
Lemma bind_inr_inv {A B : Type} (c : M A) (k : A -> M B) (s s2 : state)
    (b : B) :
  bind c k s = (inr b, s2) ->
  exists a s1, c s = (inr a, s1) /\ k a s1 = (inr b, s2).
Proof.
  unfold bind; destruct (c s) as [[e|a] s1]; [discriminate|].
  intros H; exists a, s1; auto.
Qed.

(** What a primary and a secondary [netcfg] that were built hold under
    [subnets]. *)
Lemma primary_netcfg_inv (name : pystr) (i b : pyval) :
  primary_netcfg name i = inr b ->
  exists ipv4 a g n,
    getitem i (lit "ipv4") = inr ipv4
    /\ getitem ipv4 (lit "address") = inr a
    /\ getitem ipv4 (lit "gateway") = inr g
    /\ getitem ipv4 (lit "netmask") = inr n
    /\ getitem b (lit "subnets")
       = inr (PList
                [PDict [(lit "type", PStr (lit "static"));
                        (lit "control", PStr (lit "auto"));
                        (lit "address", a);
                        (lit "gateway", g);
                        (lit "netmask", n)];
                 PDict [(lit "type", PStr (lit "dhcp6"));
                        (lit "control", PStr (lit "auto"))]]).
Proof.
  unfold primary_netcfg.
  destruct (getitem i (lit "mac")) as [e|mac]; [discriminate|].
  destruct (getitem i (lit "ipv4")) as [e|ipv4]; [discriminate|].
  destruct (getitem ipv4 (lit "address")) as [e|a] eqn:Ha; [discriminate|].
  destruct (getitem ipv4 (lit "gateway")) as [e|g] eqn:Hg; [discriminate|].
  destruct (getitem ipv4 (lit "netmask")) as [e|n] eqn:Hn; [discriminate|].
  intros E; inversion E; subst.
  exists ipv4, a, g, n; repeat split; auto.
Qed.

Lemma secondary_netcfg_inv (name : pystr) (i b : pyval) :
  secondary_netcfg name i = inr b ->
  exists ipv4 a n,
    getitem i (lit "ipv4") = inr ipv4
    /\ getitem ipv4 (lit "address") = inr a
    /\ getitem ipv4 (lit "netmask") = inr n
    /\ getitem b (lit "subnets")
       = inr (PList
                [PDict [(lit "type", PStr (lit "static"));
                        (lit "control", PStr (lit "auto"));
                        (lit "address", a);
                        (lit "netmask", n)]]).
Proof.
  unfold secondary_netcfg.
  destruct (getitem i (lit "mac")) as [e|mac]; [discriminate|].
  destruct (getitem i (lit "ipv4")) as [e|ipv4]; [discriminate|].
  destruct (getitem ipv4 (lit "address")) as [e|a] eqn:Ha; [discriminate|].
  destruct (getitem ipv4 (lit "netmask")) as [e|n] eqn:Hn; [discriminate|].
  intros E; inversion E; subst.
  exists ipv4, a, n; repeat split; auto.
Qed.

(** One block of the synthesis that returned, for an entry of the list: the
    [netcfg] of the entry was built and appended. *)
Lemma interface_block_inv (W : host) (md : bundle) (k : nat)
    (netcfg : pystr -> pyval -> result pyval) (ifs blocks : list pyval)
    (i doc : pyval) (s s' : state) :
  getitem (v1 md) (lit "interfaces") = inr (PList ifs) ->
  nth_error ifs k = Some i ->
  interface_block W md k netcfg (network_document blocks) s = (inr doc, s') ->
  exists name b,
    netcfg name i = inr b /\ doc = network_document (blocks ++ [b]).
Proof.
  intros Hifs Hk.
  unfold interface_block.
  rewrite Hifs; run; cbn [py_len]; run.
  assert (Hlt : (k <? List.length ifs)%nat = true).
  { apply Nat.ltb_lt, nth_error_Some; congruence. }
  rewrite Hlt; cbn [getindex]; rewrite Hk; run.
  destruct (getitem i (lit "mac")) as [e|mac]; run; [discriminate|].
  unfold bind at 1; rewrite get_interface_name_run.
  destruct (lookup_mac mac (nic_map W s)) as [e|r]; [discriminate|].
  destruct (str_falsy r); run; [discriminate|].
  destruct r as [name|]; [|discriminate].
  destruct (netcfg name i) as [e|b] eqn:Hb; run; [discriminate|].
  rewrite append_config; intros E; inversion E.
  exists name, b; auto.
Qed.

(** C8. Whenever [generate_network_config] returns a document, and it does
    when the first two interface entries resolve, whatever the entries after
    them hold: when there is an entry 0, block 1 of the document has exactly
    two subnets, the static one with the address, gateway and netmask of the
    ipv4 block of entry 0 and the dhcp6 one with type and control only; and,
    when there is an entry 1, block 2 has exactly one subnet, static, with
    the address and netmask of the ipv4 block of entry 1 and no gateway
    key. *)
Theorem generate_network_config_subnets (W : host) (config : params)
    (s s0 : state) (md : bundle) (ifs : list pyval) :
  get_metadata W config s = (inr md, s0) ->
  getitem (v1 md) (lit "interfaces") = inr (PList ifs) ->
  (Forall (fun i => resolvable W s0 i = true) (firstn 2 ifs) ->
   exists doc s', generate_network_config W config s = (inr doc, s'))
  /\ forall doc s',
       generate_network_config W config s = (inr doc, s') ->
       match ifs with
       | [] => True
       | i0 :: rest =>
           (exists ipv4 a g n,
              getitem i0 (lit "ipv4") = inr ipv4
              /\ getitem ipv4 (lit "address") = inr a
              /\ getitem ipv4 (lit "gateway") = inr g
              /\ getitem ipv4 (lit "netmask") = inr n
              /\ subnets_of doc 1
                 = inr (PList
                          [PDict [(lit "type", PStr (lit "static"));
                                  (lit "control", PStr (lit "auto"));
                                  (lit "address", a);
                                  (lit "gateway", g);
                                  (lit "netmask", n)];
                           PDict [(lit "type", PStr (lit "dhcp6"));
                                  (lit "control", PStr (lit "auto"))]]))
           /\ match rest with
              | [] => True
              | i1 :: _ =>
                  exists ipv4 a n fields,
                    getitem i1 (lit "ipv4") = inr ipv4
                    /\ getitem ipv4 (lit "address") = inr a
                    /\ getitem ipv4 (lit "netmask") = inr n
                    /\ subnets_of doc 2 = inr (PList [PDict fields])
                    /\ fields = [(lit "type", PStr (lit "static"));
                                 (lit "control", PStr (lit "auto"));
                                 (lit "address", a);
                                 (lit "netmask", n)]
                    /\ dict_lookup (lit "gateway") fields = None
              end
       end.
Proof.
  intros Hget Hifs; split.
  - intros Hall.
    destruct (physical_blocks_defined W s0 (firstn 2 ifs) Hall)
      as (blocks & Hb2 & _).
    assert (Hb : physical_blocks W s0 ifs = Some blocks)
      by (destruct ifs as [|i0 [|i1 rest]]; exact Hb2).
    eexists; eexists.
    exact (generate_network_config_run W config s s0 md ifs blocks
             Hget Hifs Hb).
  - intros doc s'; unfold generate_network_config.
    rewrite (bind_run_inr _ _ _ _ _ Hget).
    fold nameserver_block; fold (network_document [nameserver_block]).
    destruct ifs as [|i0 rest]; [intros _; exact I|].
    intros Hrun.
    apply bind_inr_inv in Hrun as (net1 & s1 & H1 & Hrun).
    destruct (interface_block_inv W md 0 primary_netcfg (i0 :: rest)
                [nameserver_block] i0 net1 s0 s1 Hifs eq_refl H1)
      as (n0 & b0 & Hb0 & ->).
    destruct (primary_netcfg_inv n0 i0 b0 Hb0)
      as (ipv4 & a & g & n & H4 & Ha & Hg & Hn & Hsub0).
    apply bind_inr_inv in Hrun as (net2 & s2 & H2 & Hret).
    inversion Hret; subst doc s'; clear Hret.
    destruct rest as [|i1 rest].
    + rewrite (interface_block_absent W md 1 secondary_netcfg [i0] _ s1 Hifs
                 (le_n 1)) in H2.
      inversion H2; subst net2 s2.
      split; [|exact I].
      exists ipv4, a, g, n; repeat split; auto.
    + destruct (interface_block_inv W md 1 secondary_netcfg
                  (i0 :: i1 :: rest) _ i1 net2 s1 s2 Hifs eq_refl H2)
        as (n1 & b1 & Hb1 & ->).
      destruct (secondary_netcfg_inv n1 i1 b1 Hb1)
        as (ipv4' & a' & n' & H4' & Ha' & Hn' & Hsub1).
      split.
      * exists ipv4, a, g, n; repeat split; auto.
      * exists ipv4', a', n'; eexists; repeat split; eauto.
Qed.

(** The two interfaces of the tests, followed by an entry that is no
    interface at all: the secondary subnet carries the address 10.1.112.3
    and no gateway, although entry 1 has a gateway field. *)
Lemma generate_network_config_subnets_witness :
  let W := Fixture.machine [] [Fixture.iface0; Fixture.iface1; PNone]
             Fixture.INTERFACE_MAP in
  exists doc fields,
    fst (generate_network_config W Fixture.config (Fixture.boot [])) = inr doc
    /\ subnets_of doc 2 = inr (PList [PDict fields])
    /\ dict_lookup (lit "address") fields = Some (PStr (lit "10.1.112.3"))
    /\ dict_lookup (lit "gateway") fields = None.
Proof.
  intros W.
  destruct (generate_network_config_subnets W Fixture.config (Fixture.boot [])
              (snd (get_metadata W Fixture.config (Fixture.boot [])))
              (mkBundle [] [] [] [] (lit "hunter2") [] [] []
                 (Fixture.instance_doc
                    [Fixture.iface0; Fixture.iface1; PNone]))
              [Fixture.iface0; Fixture.iface1; PNone])
    as (Hex & Hshape).
  - vm_compute; reflexivity.
  - reflexivity.
  - destruct Hex as (doc & s' & Hrun); [repeat constructor|].
    destruct (Hshape doc s' Hrun)
      as (_ & ipv4 & a & n & fields & H4 & Ha & Hn & Hsub & Hf & Hgw).
    exists doc, fields; split; [rewrite Hrun; reflexivity|].
    split; [exact Hsub|]. split; [|exact Hgw].
    vm_compute in H4; inversion H4; subst ipv4.
    vm_compute in Ha; inversion Ha; subst a.
    rewrite Hf; reflexivity.
Defined.

(** ** The vendor configuration *)

Lemma is_ascii_false (s : list N) (c : N) :
  In c s -> (128 <= c)%N -> is_ascii s = false.
Proof.
  intros Hin Hc; unfold is_ascii.
  destruct (forallb (fun c => (c <? 128)%N) s) eqn:E; [|reflexivity].
  rewrite forallb_forall in E; specialize (E c Hin).
  apply N.ltb_lt in E; lia.
Qed.

Lemma b64encode_not_nil (bs : list N) : bs <> [] -> b64encode bs <> [].
Proof.
  destruct bs as [|a [|b [|c rest]]]; simpl; intros H; congruence.
Qed.

(** Induction on a byte string three bytes at a time, as [b64encode] reads
    it. *)
Lemma list_ind3 (P : list N -> Prop) :
  P [] -> (forall a, P [a]) -> (forall a b, P [a; b]) ->
  (forall a b c rest, P rest -> P (a :: b :: c :: rest)) ->
  forall l, P l.
Proof.
  intros H0 H1 H2 H3; fix IH 1.
  intros [|a [|b [|c rest]]];
    [exact H0 | exact (H1 a) | exact (H2 a b) | exact (H3 a b c rest (IH rest))].
Qed.

Lemma b64_char_ascii (i : N) : (b64_char i <? 128)%N = true.
Proof.
  unfold b64_char.
  assert (H : forallb (fun c => (c <? 128)%N) (0%N :: b64_alphabet) = true)
    by reflexivity.
  rewrite forallb_forall in H; apply H.
  destruct (nth_in_or_default (N.to_nat i) b64_alphabet 0%N) as [Hin | ->];
    [right; exact Hin | left; reflexivity].
Qed.

(** The output of [b64encode] decodes as ASCII, whatever the bytes. *)
Lemma b64encode_is_ascii (bs : list N) : is_ascii (b64encode bs) = true.
Proof.
  induction bs as [|a|a b|a b c rest IH] using list_ind3;
    cbn [b64encode is_ascii forallb]; rewrite ?b64_char_ascii;
    try reflexivity.
  exact IH.
Qed.

Section VendorConfig.

Variable W : host.

Lemma get_metadata_caches (p : params) (s s0 : state) (md : bundle) :
  get_metadata W p s = (inr md, s0) -> METADATA s0 = Some md.
Proof.
  destruct (METADATA s) as [md'|] eqn:Hm.
  - rewrite (get_metadata_cached W p s md' Hm).
    intros E; inversion E; subst; exact Hm.
  - rewrite (get_metadata_fresh W p s Hm).
    destruct (fetch_cycle W p s) as [[e|md'] s1]; intros E; inversion E.
    reflexivity.
Qed.

(** With a script that is not ASCII the encoding step raises, right after
    the bundle is obtained. *)
Lemma generate_config_encode_raises (config : params) (s s0 : state)
    (md : bundle) :
  get_metadata W config s = (inr md, s0) ->
  is_ascii (startup_script md) = false ->
  generate_config W config s = (inl UnicodeEncodeError, s0).
Proof.
  intros Hget Hna; unfold generate_config.
  rewrite (bind_run_inr _ _ _ _ _ Hget).
  assert (Hne : Str.eqb (startup_script md) [] = false).
  { destruct (startup_script md); [discriminate | reflexivity]. }
  rewrite Hne; cbn [negb].
  unfold encode_ascii; rewrite Hna; reflexivity.
Qed.

(** With a script that is not empty, no document comes back: past the
    encoding, the template has no [runcmd] entry to extend. *)
Lemma generate_config_script_no_document (config : params) (s s0 : state)
    (md : bundle) :
  get_metadata W config s = (inr md, s0) ->
  startup_script md <> [] ->
  exists e s', generate_config W config s = (inl e, s')
               /\ (e = UnicodeEncodeError
                   \/ e = KeyError (PStr (lit "runcmd"))
                   \/ fst (generate_network_config W config s0) = inl e).
Proof.
  intros Hget Hne.
  destruct (is_ascii (startup_script md)) eqn:Ha.
  2:{ exists UnicodeEncodeError, s0; split; [|auto].
      apply (generate_config_encode_raises config s s0 md Hget Ha). }
  assert (Hne' : Str.eqb (startup_script md) [] = false).
  { destruct (startup_script md); [congruence | reflexivity]. }
  assert (Hstep :
    (if negb (Str.eqb (startup_script md) [])
     then
       raw <- lift (encode_ascii (startup_script md)) ;;
       lift (decode_ascii (b64encode raw))
     else ret (startup_script md)) s0
    = (inr (b64encode (startup_script md)), s0)).
  { rewrite Hne'; cbn [negb]; unfold encode_ascii; rewrite Ha; run.
    unfold decode_ascii; rewrite b64encode_is_ascii; reflexivity. }
  unfold generate_config.
  rewrite (bind_run_inr _ _ _ _ _ Hget).
  rewrite (bind_run_inr _ _ _ _ _ Hstep).
  unfold bind at 1.
  destruct (generate_network_config W config s0) as [[e|network] s1] eqn:Hn.
  { exists e, s1; split; [reflexivity | auto]. }
  assert (Hb64 : Str.eqb (b64encode (startup_script md)) [] = false).
  { pose proof (b64encode_not_nil _ Hne) as Hnn.
    destruct (b64encode (startup_script md)); [congruence | reflexivity]. }
  rewrite Hb64; cbn [negb].
  exists (KeyError (PStr (lit "runcmd"))), s1; split; [reflexivity | auto].
Qed.

(** With an empty script the document is the template, with the network
    document under its key and neither [write_files] nor [runcmd]. *)
Lemma generate_config_empty_script (config : params) (s s0 s' : state)
    (md : bundle) (network : pyval) :
  get_metadata W config s = (inr md, s0) ->
  startup_script md = [] ->
  generate_network_config W config s0 = (inr network, s') ->
  exists doc,
    generate_config W config s = (inr doc, s')
    /\ getitem doc (lit "network") = inr network
    /\ getitem doc (lit "write_files") = inl (KeyError (PStr (lit "write_files")))
    /\ getitem doc (lit "runcmd") = inl (KeyError (PStr (lit "runcmd"))).
Proof.
  intros Hget Hs Hn; unfold generate_config.
  rewrite (bind_run_inr _ _ _ _ _ Hget), Hs; cbn [Str.eqb negb]; run.
  rewrite (bind_run_inr _ _ _ _ _ Hn).
  eexists; split; [reflexivity|]; repeat split; reflexivity.
Qed.

End VendorConfig.

(** C1 (code defect). With the startup script [echo hi], on the machine of
    the tests, [generate_config] raises KeyError for [runcmd]: the template
    has no such entry when the two commands are to be appended. No document,
    and so no write-file directive, comes back. With the empty script the
    document comes back without either key. *)
Theorem generate_config_script_KeyError :
  let W := Fixture.machine (lit "echo hi") [Fixture.iface0]
             Fixture.INTERFACE_MAP in
  let W' := Fixture.machine [] [Fixture.iface0] Fixture.INTERFACE_MAP in
  fst (generate_config W Fixture.config (Fixture.boot []))
  = inl (KeyError (PStr (lit "runcmd")))
  /\ exists doc,
       fst (generate_config W' Fixture.config (Fixture.boot [])) = inr doc
       /\ getitem doc (lit "write_files")
          = inl (KeyError (PStr (lit "write_files")))
       /\ getitem doc (lit "runcmd") = inl (KeyError (PStr (lit "runcmd"))).
Proof.
  split; [vm_compute; reflexivity|].
  eexists; split; [vm_compute; reflexivity|].
  split; vm_compute; reflexivity.
Qed.

(** C10. Once the bundle is obtained, a startup script with a character
    outside ASCII makes [generate_config] raise UnicodeEncodeError at the
    encoding step; and a document comes back only for a script that is empty
    or all ASCII. *)
Theorem generate_config_ascii_only (W : host) (config : params)
    (s s0 : state) (md : bundle) :
  get_metadata W config s = (inr md, s0) ->
  ((exists c, In c (startup_script md) /\ (128 <= c)%N) ->
   generate_config W config s = (inl UnicodeEncodeError, s0))
  /\ (forall doc s',
        generate_config W config s = (inr doc, s') ->
        startup_script md = []
        \/ forall c, In c (startup_script md) -> (c < 128)%N).
Proof.
  intros Hget; split.
  - intros (c & Hin & Hc).
    apply (generate_config_encode_raises W config s s0 md Hget).
    eapply is_ascii_false; eauto.
  - intros doc s' Hrun; right.
    destruct (is_ascii (startup_script md)) eqn:Ha.
    + unfold is_ascii in Ha; rewrite forallb_forall in Ha.
      intros c Hin; apply N.ltb_lt, Ha, Hin.
    + rewrite (generate_config_encode_raises W config s s0 md Hget Ha) in Hrun.
      discriminate.
Qed.

(** The script [echo café]: the bundle is fetched, and the encoding raises. *)
Lemma generate_config_ascii_only_witness :
  let script := lit "echo caf" ++ [233%N] in
  let W := Fixture.machine script [Fixture.iface0] Fixture.INTERFACE_MAP in
  (exists c, In c script /\ (128 <= c)%N)
  /\ fst (generate_config W Fixture.config (Fixture.boot []))
     = inl UnicodeEncodeError.
Proof.
  intros script W.
  assert (Hc : exists c, In c script /\ (128 <= c)%N).
  { exists 233%N; split; [unfold script; apply in_or_app; right; left;
                          reflexivity | lia]. }
  split; [exact Hc|].
  destruct (generate_config_ascii_only W Fixture.config (Fixture.boot [])
              (snd (get_metadata W Fixture.config (Fixture.boot [])))
              (mkBundle script [] [] [] (lit "hunter2") [] [] []
                 (Fixture.instance_doc [Fixture.iface0])))
    as (Hraise & _).
  - vm_compute; reflexivity.
  - rewrite (Hraise Hc); reflexivity.
Defined.

(** * Further properties of the code *)

(** ** The substitution of [get_kernel_parameters] *)

Lemma contains_app_r (n a b : pystr) :
  contains n b = true -> contains n (a ++ b) = true.
Proof.
  intros H; induction a as [|x a IH]; simpl; [exact H|].
  rewrite IH; apply orb_true_r.
Qed.

Lemma contains_root_prefix (rest : pystr) :
  contains (lit "root=") (lit "root=" ++ rest) = true.
Proof. reflexivity. Qed.

(** Where [root=] does not occur, [.*root=] does not match. *)
Lemma match_dotstar_root_none (s : pystr) :
  contains (lit "root=") s = false -> Re.match_dotstar_root s = None.
Proof.
  induction s as [|c t IH]; [reflexivity|].
  cbn [contains]; intros H; apply orb_false_iff in H as [Hh Ht].
  cbn [Re.match_dotstar_root]; rewrite Hh, (IH Ht).
  destruct (N.eqb c Re.newline); reflexivity.
Qed.

(** The star runs to the last [root=] of the line. *)
Lemma match_dotstar_root_last (pre rest : pystr) :
  one_line pre = true ->
  contains (lit "root=") rest = false ->
  Re.match_dotstar_root (pre ++ lit "root=" ++ rest)
  = Some (List.length pre + 5)%nat.
Proof.
  intros Hpre Hrest; induction pre as [|c pre IH].
  - change ([] ++ lit "root=" ++ rest)
      with (114%N :: (lit "oot=" ++ rest)).
    cbn [Re.match_dotstar_root].
    rewrite (match_dotstar_root_none (lit "oot=" ++ rest)).
    + simpl; destruct rest; reflexivity.
    + simpl; exact Hrest.
  - cbn [one_line forallb] in Hpre; apply andb_true_iff in Hpre as [Hc Hpre].
    change ((c :: pre) ++ lit "root=" ++ rest)
      with (c :: (pre ++ lit "root=" ++ rest)).
    cbn [Re.match_dotstar_root].
    apply negb_true_iff in Hc; rewrite Hc, (IH Hpre); reflexivity.
Qed.

Lemma sub_scan_skip (a b : pystr) :
  Re.sub_scan (List.length a) (a ++ b) = Re.sub_scan 0 b.
Proof.
  induction a as [|c a IH]; [reflexivity|].
  simpl; exact IH.
Qed.

(** Where [root=] does not occur, the substitution changes nothing. *)
Lemma sub_scan_no_root (s : pystr) :
  contains (lit "root=") s = false -> Re.sub_scan 0 s = s.
Proof.
  induction s as [|c t IH]; [reflexivity|].
  cbn [contains]; intros H; apply orb_false_iff in H as [Hh Ht].
  cbn [Re.sub_scan Re.match_dotplus_root].
  rewrite (match_dotstar_root_none t Ht), (IH Ht).
  destruct (N.eqb c Re.newline); reflexivity.
Qed.

(** On a first line that has text before its last [root=], the substitution
    leaves what follows that [root=]. *)
Lemma sub_dotplus_root_last (pre rest : pystr) :
  pre <> [] -> one_line pre = true ->
  contains (lit "root=") rest = false ->
  Re.sub_dotplus_root (pre ++ lit "root=" ++ rest) = rest.
Proof.
  intros Hne Hpre Hrest.
  destruct pre as [|c pre]; [congruence|].
  cbn [one_line forallb] in Hpre; apply andb_true_iff in Hpre as [Hc Hpre].
  apply negb_true_iff in Hc.
  unfold Re.sub_dotplus_root.
  change ((c :: pre) ++ lit "root=" ++ rest)
    with (c :: (pre ++ lit "root=" ++ rest)).
  cbn [Re.sub_scan Re.match_dotplus_root].
  rewrite Hc, (match_dotstar_root_last pre rest Hpre Hrest).
  cbn [option_map].
  rewrite app_assoc.
  replace (List.length pre + 5)%nat with (List.length (pre ++ lit "root="))
    by (rewrite length_app; reflexivity).
  rewrite sub_scan_skip.
  apply sub_scan_no_root; exact Hrest.
Qed.

(** X1. [get_kernel_parameters] works on the text that reading
    [/proc/cmdline] in text mode yields, newlines translated. When that text
    has characters, none of them a newline, before its last [root=], the
    function returns the stripped character at index 1 of what follows that
    [root=], and raises IndexError when fewer than two characters follow;
    the state is unchanged. *)
Theorem get_kernel_parameters_last_root (s : state) (raw pre rest : pystr) :
  fs_lookup "/proc/cmdline" (fs s) = Some (File raw) ->
  universal_newlines raw = pre ++ lit "root=" ++ rest ->
  pre <> [] -> one_line pre = true ->
  contains (lit "root=") rest = false ->
  get_kernel_parameters s
  = match nth_error rest 1 with
    | Some c => (inr (strip [c]), s)
    | None => (inl IndexError, s)
    end.
Proof.
  intros Hfile Htext Hne Hpre Hrest.
  unfold get_kernel_parameters, path_exists; run.
  rewrite Hfile; cbn [negb].
  unfold bind at 1, read_file; rewrite Hfile, Htext.
  rewrite (contains_app_r _ pre _ (contains_root_prefix rest)); cbn [negb].
  rewrite (sub_dotplus_root_last pre rest Hne Hpre Hrest).
  destruct (nth_error rest 1); reflexivity.
Qed.

(** A command line that ends in a carriage return and a line feed: one
    character follows [root=] once the newlines are translated, and the
    index raises. *)
Lemma get_kernel_parameters_last_root_witness :
  let s := Fixture.boot
             [("/proc/cmdline"%string,
               File (lit "x root=" ++ [13%N; 10%N]))] in
  let t := Fixture.boot
             [("/proc/cmdline"%string,
               File (lit "BOOT_IMAGE=/vmlinuz root=/dev/vda1 ro"
                     ++ [Re.newline]))] in
  get_kernel_parameters s = (inl IndexError, s)
  /\ get_kernel_parameters t = (inr (lit "d"), t).
Proof.
  intros s t; split.
  - exact (get_kernel_parameters_last_root s (lit "x root=" ++ [13%N; 10%N])
             (lit "x ") [Re.newline]
             eq_refl eq_refl ltac:(discriminate) eq_refl eq_refl).
  - exact (get_kernel_parameters_last_root t _ (lit "BOOT_IMAGE=/vmlinuz ")
             (lit "/dev/vda1 ro" ++ [Re.newline])
             eq_refl eq_refl ltac:(discriminate) eq_refl eq_refl).
Defined.

(** ** The answer of [is_vultr] *)

Lemma get_kernel_parameters_state (s : state) :
  snd (get_kernel_parameters s) = s.
Proof.
  unfold get_kernel_parameters, path_exists; run.
  destruct (fs_lookup "/proc/cmdline" (fs s)) as [n|] eqn:En; cbn [negb];
    [|reflexivity].
  unfold bind, read_file; rewrite En.
  destruct n as [c| |]; [|reflexivity|reflexivity].
  destruct (contains (lit "root=") (universal_newlines c)); cbn [negb];
    [|reflexivity].
  destruct (nth_error (Re.sub_dotplus_root (universal_newlines c)) 1);
    reflexivity.
Qed.

(** The answer of [is_vultr] in closed form. *)
Lemma is_vultr_run (W : host) (s : state) :
  is_vultr W s
  = (if opt_str_eqb (read_dmi_data W "system-manufacturer") (lit "Vultr")
     then inr true
     else
       match fst (get_kernel_parameters s) with
       | inl e => inl e
       | inr _ =>
           inr match fs_lookup "/etc/vultr" (fs s) with
               | Some Dir => true
               | _ => false
               end
       end, s).
Proof.
  unfold is_vultr; cbn [get_sysinfo manufacturer].
  destruct (opt_str_eqb (read_dmi_data W "system-manufacturer") (lit "Vultr"));
    [reflexivity|].
  unfold bind at 1.
  pose proof (get_kernel_parameters_state s) as Hs.
  destruct (get_kernel_parameters s) as [[e|kp] s1] eqn:Ek;
    simpl in Hs; subst s1; [reflexivity|].
  apply get_kernel_parameters_short in Ek as [_ Hlen].
  rewrite (contains_vultr_short _ Hlen).
  unfold path_exists, path_isdir, bind, gets, ret; cbv beta.
  destruct (fs_lookup "/etc/vultr" (fs s)) as [[c| |]|] eqn:El;
    cbv beta iota; rewrite ?El; reflexivity.
Qed.

(** X2. [is_vultr] never changes the state. When the manufacturer is Vultr
    it returns [True] without a look at the file system. Otherwise, when it
    returns, its answer is whether [/etc/vultr] is a directory: what the
    kernel command line holds has no part in it, and a regular file named
    [/etc/vultr] does not count. *)
Theorem is_vultr_outcome (W : host) (s : state) :
  snd (is_vultr W s) = s
  /\ (if opt_str_eqb (read_dmi_data W "system-manufacturer") (lit "Vultr")
      then fst (is_vultr W s) = inr true
      else forall b,
             fst (is_vultr W s) = inr b ->
             b = match fs_lookup "/etc/vultr" (fs s) with
                 | Some Dir => true
                 | _ => false
                 end).
Proof.
  rewrite is_vultr_run; cbn [fst snd]; split; [reflexivity|].
  destruct (opt_str_eqb (read_dmi_data W "system-manufacturer") (lit "Vultr"));
    [reflexivity|].
  intros b; destruct (fst (get_kernel_parameters s)); [discriminate|].
  intros E; inversion E; reflexivity.
Qed.

(** ** The translation of field names *)

Lemma API_MAP_key (flag suffix : pystr) :
  dict_lookup flag API_MAP = Some suffix -> In (flag, suffix) API_MAP.
Proof.
  unfold API_MAP; cbn [dict_lookup].
  repeat match goal with
         | |- (if Str.eqb flag ?k then _ else _) = _ -> _ =>
             let E := fresh "E" in
             destruct (Str.eqb flag k) eqn:E;
             [apply str_eqb_eq in E; subst flag; intros H; inversion H;
              simpl; tauto|]
         end.
  discriminate.
Qed.

Lemma get_url_prefix (u flag : pystr) :
  starts_with u (get_url u flag) = fetchable flag || Str.is_empty u.
Proof.
  assert (Hpre : forall a b, starts_with a (a ++ b) = true).
  { intros a b; induction a as [|x a IH]; simpl; [reflexivity|].
    rewrite N.eqb_refl, IH; reflexivity. }
  unfold get_url, fetchable.
  destruct (dict_lookup flag API_MAP); [apply Hpre|].
  destruct (contains (lit "app-") flag || contains (lit "md-") flag);
    [apply Hpre|].
  destruct u; reflexivity.
Qed.

(** X3. [get_url] returns the empty string exactly for the names it does not
    translate, whatever the base URL, the empty one included; every other
    result begins with the base URL. *)
Theorem get_url_sentinel (u flag : pystr) :
  (get_url u flag = [] <-> fetchable flag = false)
  /\ starts_with u (get_url u flag) = fetchable flag || Str.is_empty u.
Proof.
  split.
  - pose proof (get_url_nil u flag) as H.
    destruct (fetchable flag); simpl in H.
    + split; [intros E; rewrite E in H; discriminate | discriminate].
    + split; [reflexivity | intros _; apply str_eqb_eq; exact H].
  - apply get_url_prefix.
Qed.

(** X4. Two names that [get_url] translates to the same URL are the same
    name: no two metadata fields share an endpoint. *)
Theorem get_url_injective (u f g : pystr) :
  fetchable f = true -> fetchable g = true ->
  get_url u f = get_url u g -> f = g.
Proof.
  unfold fetchable, get_url.
  destruct (dict_lookup f API_MAP) as [sf|] eqn:Ef;
    destruct (dict_lookup g API_MAP) as [sg|] eqn:Eg.
  - intros _ _ E; apply app_inv_head in E; subst sg.
    apply API_MAP_key in Ef, Eg.
    unfold API_MAP in Ef, Eg; simpl in Ef, Eg.
    repeat match goal with
           | H : _ \/ _ |- _ => destruct H as [H|H]
           | H : False |- _ => destruct H
           end;
      inversion Ef; subst; inversion Eg; subst; reflexivity.
  - intros _ Hg; rewrite Hg; intros E; apply app_inv_head in E; subst sf.
    apply API_MAP_key in Ef.
    unfold API_MAP in Ef; simpl in Ef.
    repeat match goal with
           | H : _ \/ _ |- _ => destruct H as [H|H]
           | H : False |- _ => destruct H
           end;
      cbv in Ef; inversion Ef; subst; cbv in Eg; discriminate.
  - intros Hf _; rewrite Hf; intros E; apply app_inv_head in E; subst sg.
    apply API_MAP_key in Eg.
    unfold API_MAP in Eg; simpl in Eg.
    repeat match goal with
           | H : _ \/ _ |- _ => destruct H as [H|H]
           | H : False |- _ => destruct H
           end;
      cbv in Eg; inversion Eg; subst; cbv in Ef; discriminate.
  - intros Hf Hg; rewrite Hf, Hg; intros E.
    apply app_inv_head in E; apply app_inv_head in E; exact E.
Qed.

Lemma get_url_injective_witness :
  fetchable (lit "app-key") = true
  /\ get_url Fixture.base (lit "app-key") = get_url Fixture.base (lit "app-key")
  /\ lit "app-key" = lit "app-key".
Proof.
  split; [reflexivity|]; split; [reflexivity|].
  exact (get_url_injective Fixture.base (lit "app-key") (lit "app-key")
           eq_refl eq_refl eq_refl).
Defined.

(** ** What a fetch returns and sends *)

Lemma starts_with_app (a b : pystr) : starts_with a (a ++ b) = true.
Proof.
  induction a as [|x a IH]; simpl; [reflexivity|].
  rewrite N.eqb_refl, IH; reflexivity.
Qed.

Lemma sent_for_get_url (p : params) (flag : pystr) :
  fetchable flag = true ->
  sent_for p (request_of (mkParams (get_url (url p) flag) (timeout p)
                                   (retries p) (wait p))) = true.
Proof.
  intros H; unfold sent_for, request_of; cbn.
  rewrite !Z.eqb_refl, !andb_true_r.
  rewrite get_url_prefix, H; reflexivity.
Qed.

(** X5. When [fetch_metadata] returns a text, the name is one [get_url]
    translates, exactly one request was sent, to the translated URL with the
    token header and the caller's timeout, retries and wait, the response had
    a status from 200 to 299, and the text is its decoded body. *)
Theorem fetch_metadata_returns (W : host) (flag : pystr) (p : params)
    (s s' : state) (text : pystr) :
  fetch_metadata W flag p s = (inr text, s') ->
  let rq := request_of (mkParams (get_url (url p) flag) (timeout p)
                                 (retries p) (wait p)) in
  fetchable flag = true
  /\ s' = log_request rq s
  /\ sent_for p rq = true
  /\ exists r, readurl W (http_log s) rq = Some r
               /\ (200 <= code r < 300)%Z
               /\ bytes_decode W (contents r) = Some text.
Proof.
  intros Hrun rq.
  destruct (fetchable flag) eqn:Hf.
  2:{ rewrite (fetch_metadata_unknown W flag p s Hf) in Hrun; discriminate. }
  split; [reflexivity|].
  rewrite (fetch_metadata_fetchable W flag p s Hf) in Hrun.
  rewrite read_metadata_run in Hrun; fold rq in Hrun.
  split; [inversion Hrun; reflexivity|].
  split; [apply sent_for_get_url; exact Hf|].
  revert Hrun.
  destruct (readurl W (http_log s) rq) as [r|]; [|discriminate].
  unfold ok.
  destruct ((200 <=? code r)%Z && (code r <? 300)%Z) eqn:Hok;
    cbn [negb]; [|discriminate].
  destruct (bytes_decode W (contents r)) as [t|] eqn:Hd; [|discriminate].
  intros E; inversion E; subst.
  apply andb_true_iff in Hok as [Hlo Hhi].
  apply Z.leb_le in Hlo; apply Z.ltb_lt in Hhi.
  exists r; repeat split; auto.
Qed.

Lemma fetch_metadata_returns_witness :
  let W := Fixture.machine (lit "echo hi") [] [] in
  let s := Fixture.boot [] in
  exists r,
    readurl W (http_log s)
      (request_of (mkParams (Fixture.base ++ lit "/latest/startup-script")
                            10 3 1)) = Some r
    /\ (200 <= code r < 300)%Z
    /\ bytes_decode W (contents r) = Some (lit "echo hi").
Proof.
  intros W s.
  assert (Hrun : fetch_metadata W (lit "startup-script") Fixture.config s
                 = (inr (lit "echo hi"),
                    log_request
                      (request_of (mkParams
                         (Fixture.base ++ lit "/latest/startup-script")
                         10 3 1)) s))
    by (vm_compute; reflexivity).
  destruct (fetch_metadata_returns W (lit "startup-script") Fixture.config s
              _ _ Hrun)
    as (_ & _ & _ & r & Hr & Hc & Hd).
  exists r; auto.
Defined.

(** X6. For a name [get_url] translates, a response with a status outside
    200 to 299 makes [fetch_metadata] raise TypeError, not RuntimeError: the
    message of the RuntimeError is formatted with one value for two fields.
    The request is in the log. *)
Theorem fetch_metadata_bad_status (W : host) (flag : pystr) (p : params)
    (s : state) (r : response) :
  let rq := request_of (mkParams (get_url (url p) flag) (timeout p)
                                 (retries p) (wait p)) in
  fetchable flag = true ->
  readurl W (http_log s) rq = Some r ->
  (code r < 200 \/ 300 <= code r)%Z ->
  fetch_metadata W flag p s = (inl TypeError, log_request rq s).
Proof.
  intros rq Hf Hr Hc.
  rewrite (fetch_metadata_fetchable W flag p s Hf).
  rewrite read_metadata_run; fold rq.
  rewrite Hr; unfold ok.
  replace ((200 <=? code r)%Z && (code r <? 300)%Z) with false; [reflexivity|].
  symmetry; apply andb_false_iff.
  destruct Hc as [H|H]; [left; apply Z.leb_gt | right; apply Z.ltb_ge]; lia.
Qed.

Lemma fetch_metadata_bad_status_witness :
  let W := mkHost (fun _ => None)
                  (fun _ _ => Some (mkResponse 404 (lit "Not Found")))
                  (fun bs => Some bs) (fun _ => None) (fun _ => None)
                  (fun _ => []) in
  fst (fetch_metadata W (lit "hostname") Fixture.config (Fixture.boot []))
  = inl TypeError.
Proof.
  intros W.
  assert (Hf : fetchable (lit "hostname") = true) by (vm_compute; reflexivity).
  assert (Hc : (code (mkResponse 404 (lit "Not Found")) < 200
                \/ 300 <= code (mkResponse 404 (lit "Not Found")))%Z)
    by (right; simpl; lia).
  rewrite (fetch_metadata_bad_status W (lit "hostname") Fixture.config
             (Fixture.boot []) (mkResponse 404 (lit "Not Found")) Hf
             eq_refl Hc).
  reflexivity.
Defined.

(** ** The requests of a fetch cycle *)

Section Cycle.

Variable W : host.

(** One fetch of the cycle: the request goes out, and the cycle goes on only
    when a text comes back. *)
Lemma fetch_step {B : Type} (flag : pystr) (p : params) (k : pystr -> M B)
    (s : state) :
  fetchable flag = true ->
  bind (fetch_metadata W flag p) k s
  = let s1 := log_request
                (request_of (mkParams (get_url (url p) flag) (timeout p)
                                      (retries p) (wait p))) s in
    match fst (fetch_metadata W flag p s) with
    | inl e => (inl e, s1)
    | inr a => k a s1
    end.
Proof.
  intros Hf; unfold bind.
  rewrite (fetch_metadata_fetchable W flag p s Hf), read_metadata_run.
  cbn [fst]; destruct (readurl W _ _) as [r|]; [|reflexivity].
  destruct (negb (ok r)); [reflexivity|].
  destruct (bytes_decode W _); reflexivity.
Qed.

Lemma cycle_requests_nine (p : params) :
  List.length (cycle_requests p) = 9%nat.
Proof. reflexivity. Qed.

(** One fetch of the cycle in a proof: the case where it raises after [n]
    requests is closed, the case where it returns goes on. *)
Ltac cycle_step n :=
  rewrite fetch_step by reflexivity; cbv zeta;
  match goal with
  | |- context [fst (fetch_metadata ?W ?f ?p ?s)] =>
      destruct (fst (fetch_metadata W f p s));
      [exists n; split; [lia|]; split; [|exact I];
       cbn [snd http_log log_request]; rewrite <- ?app_assoc; reflexivity|]
  end.

(** The log after a cycle: the first [k] requests of the nine were added,
    all nine when a bundle comes back, and nothing else changed. *)
Lemma fetch_cycle_log (p : params) (s : state) :
  exists k,
    (1 <= k <= 9)%nat
    /\ http_log (snd (fetch_cycle W p s))
       = http_log s ++ firstn k (cycle_requests p)
    /\ match fst (fetch_cycle W p s) with
       | inr _ => k = 9%nat
       | inl _ => True
       end.
Proof.
  unfold fetch_cycle.
  cycle_step 1%nat. cycle_step 2%nat. cycle_step 3%nat. cycle_step 4%nat.
  cycle_step 5%nat. cycle_step 6%nat. cycle_step 7%nat. cycle_step 8%nat.
  cycle_step 9%nat.
  exists 9%nat; split; [lia|].
  destruct (json_loads W _); cbn [fst snd ret raise http_log log_request];
    rewrite <- ?app_assoc; split; reflexivity || exact I.
Qed.

End Cycle.

(** X7. A fetch cycle that returns a bundle has sent exactly nine requests,
    one per entry of the table and in the order of the table, each with the
    token header and the caller's settings; whatever the outcome, the
    requests sent are the first ones of these nine, at least one, and the
    interface mapping, the file system and the count of system queries are
    as before. *)
Theorem get_metadata_requests (W : host) (p : params) (s : state) :
  METADATA s = None ->
  let '(r, s') := get_metadata W p s in
  (exists k, (1 <= k <= 9)%nat
             /\ http_log s' = http_log s ++ firstn k (cycle_requests p)
             /\ match r with inr _ => k = 9%nat | inl _ => True end)
  /\ forallb (sent_for p) (cycle_requests p) = true
  /\ MAC_TO_NICS s' = MAC_TO_NICS s
  /\ fs s' = fs s
  /\ nic_queries s' = nic_queries s.
Proof.
  intros Hm; rewrite (get_metadata_fresh W p s Hm).
  destruct (fetch_cycle_log W p s) as (k & Hk & Hlog & Hr).
  pose proof (logs_only_fetch_cycle W p s) as (_ & HN & HF & HQ & _).
  assert (Hsent : forallb (sent_for p) (cycle_requests p) = true).
  { unfold cycle_requests, sent_for, request_of; cbn.
    rewrite !Z.eqb_refl, !starts_with_app; reflexivity. }
  destruct (fetch_cycle W p s) as [[e|md] s1]; cbn [fst snd] in *.
  - split; [exists k; auto|]. repeat split; assumption.
  - split; [exists k; auto|]. repeat split; assumption.
Qed.

Lemma get_metadata_requests_witness :
  let W := Fixture.flaky 4 [] [] [] in
  List.length
    (http_log (snd (get_metadata W Fixture.config (Fixture.boot []))))
  = 5%nat
  /\ forallb (sent_for Fixture.config) (cycle_requests Fixture.config) = true.
Proof.
  intros W.
  pose proof (get_metadata_requests W Fixture.config (Fixture.boot []) eq_refl)
    as H.
  split; [vm_compute; reflexivity|].
  destruct (get_metadata W Fixture.config (Fixture.boot [])) as [r s'].
  exact (proj1 (proj2 H)).
Defined.

(** ** Lookups of the resolver *)

(** X8. For a MAC given as a string [get_interface_name] never raises: it
    returns the name the mapping in use binds to the MAC, and [None] when the
    MAC is not a key of it. A MAC that is a list or a dict raises TypeError.
    In each case the mapping in use is cached. *)
Theorem get_interface_name_outcome (W : host) (s : state) :
  (forall k, get_interface_name W (PStr k) s
             = (inr (dict_lookup k (nic_map W s)), resolved W s))
  /\ (forall l, get_interface_name W (PList l) s
                = (inl TypeError, resolved W s))
  /\ (forall d, get_interface_name W (PDict d) s
                = (inl TypeError, resolved W s))
  /\ MAC_TO_NICS (resolved W s) = Some (nic_map W s).
Proof.
  repeat split; intros; try (rewrite get_interface_name_run; reflexivity).
  unfold resolved, nic_map.
  destruct (MAC_TO_NICS s) as [[|e m]|] eqn:E; cbn [dict_falsy]; auto.
Qed.

(** X9. Once a mapping that is not empty is cached, the system is not
    consulted again: the answer is read from the cache whatever the machine
    reports now, and the state does not change. *)
Theorem get_interface_name_stale (W W' : host) (mac : pyval) (s : state)
    (e : pystr * pystr) (m : list (pystr * pystr)) :
  MAC_TO_NICS s = Some (e :: m) ->
  get_interface_name W mac s = (lookup_mac mac (e :: m), s)
  /\ get_interface_name W' mac s = get_interface_name W mac s.
Proof.
  intros H; rewrite !get_interface_name_run.
  unfold nic_map, resolved; rewrite H; cbn [dict_falsy]; auto.
Qed.

Lemma get_interface_name_stale_witness :
  let s := mkState None (Some Fixture.INTERFACE_MAP) [] [] 1 in
  let mac := PStr (lit "5a:00:03:1b:4e:ca") in
  get_interface_name (Fixture.machine [] [] []) mac s
  = (inr (Some (lit "eth1")), s).
Proof.
  intros s mac.
  exact (proj1 (get_interface_name_stale (Fixture.machine [] [] [])
                  (Fixture.machine [] [] []) mac s _ _ eq_refl)).
Defined.

(** ** Failures of the network synthesis *)

Section SynthesisFailures.

Variable W : host.

(** One block of the synthesis, for an entry whose MAC has no name. *)
Lemma interface_block_unresolved (md : bundle) (k : nat)
    (netcfg : pystr -> pyval -> result pyval) (ifs : list pyval)
    (network i mac : pyval) (r : option pystr) (s : state) :
  getitem (v1 md) (lit "interfaces") = inr (PList ifs) ->
  nth_error ifs k = Some i ->
  getitem i (lit "mac") = inr mac ->
  lookup_mac mac (nic_map W s) = inr r ->
  str_falsy r = true ->
  interface_block W md k netcfg network s = (inl RuntimeError, resolved W s).
Proof.
  intros Hifs Hk Hmac Hlook Hfalsy.
  unfold interface_block.
  rewrite Hifs; run; cbn [py_len]; run.
  assert (Hlt : (k <? List.length ifs)%nat = true).
  { apply Nat.ltb_lt, nth_error_Some; congruence. }
  rewrite Hlt; cbn [getindex]; rewrite Hk; run.
  rewrite Hmac; run.
  unfold bind at 1; rewrite get_interface_name_run, Hlook, Hfalsy.
  run; reflexivity.
Qed.

End SynthesisFailures.

(** X10. When the MAC of entry 0 is not a key of the mapping in use, or is
    bound to the empty name, [generate_network_config] raises RuntimeError
    and returns no document; the mapping stays cached. *)
Theorem generate_network_config_primary_unresolved (W : host)
    (config : params) (s s0 : state) (md : bundle) (i0 mac : pyval)
    (rest : list pyval) (r : option pystr) :
  get_metadata W config s = (inr md, s0) ->
  getitem (v1 md) (lit "interfaces") = inr (PList (i0 :: rest)) ->
  getitem i0 (lit "mac") = inr mac ->
  lookup_mac mac (nic_map W s0) = inr r ->
  str_falsy r = true ->
  generate_network_config W config s = (inl RuntimeError, resolved W s0).
Proof.
  intros Hget Hifs Hmac Hlook Hfalsy.
  unfold generate_network_config.
  rewrite (bind_run_inr _ _ _ _ _ Hget).
  unfold bind at 1.
  rewrite (interface_block_unresolved W md 0 primary_netcfg (i0 :: rest) _ i0
             mac r s0 Hifs eq_refl Hmac Hlook Hfalsy).
  reflexivity.
Qed.

Lemma generate_network_config_primary_unresolved_witness :
  let W := Fixture.machine [] [Fixture.iface0]
             [(lit "5a:00:03:1b:4e:ca", lit "eth1")] in
  fst (generate_network_config W Fixture.config (Fixture.boot []))
  = inl RuntimeError.
Proof.
  intros W.
  assert (Hget : get_metadata W Fixture.config (Fixture.boot [])
                 = (inr (mkBundle [] [] [] [] (lit "hunter2") [] [] []
                           (Fixture.instance_doc [Fixture.iface0])),
                    snd (get_metadata W Fixture.config (Fixture.boot []))))
    by (vm_compute; reflexivity).
  rewrite (generate_network_config_primary_unresolved W Fixture.config _ _ _
             Fixture.iface0 (PStr (lit "56:00:03:15:c4:65")) [] None
             Hget eq_refl eq_refl eq_refl eq_refl).
  reflexivity.
Defined.

(** X11. When entry 0 resolves and the MAC of entry 1 does not,
    [generate_network_config] raises RuntimeError: the primary block already
    built is not returned. *)
Theorem generate_network_config_secondary_unresolved (W : host)
    (config : params) (s s0 : state) (md : bundle) (i0 i1 mac : pyval)
    (rest : list pyval) (r : option pystr) :
  get_metadata W config s = (inr md, s0) ->
  getitem (v1 md) (lit "interfaces") = inr (PList (i0 :: i1 :: rest)) ->
  resolvable W s0 i0 = true ->
  getitem i1 (lit "mac") = inr mac ->
  lookup_mac mac (nic_map W s0) = inr r ->
  str_falsy r = true ->
  generate_network_config W config s = (inl RuntimeError, resolved W s0).
Proof.
  intros Hget Hifs Hres Hmac Hlook Hfalsy.
  unfold resolvable in Hres.
  destruct (resolve W s0 i0) as [n0|] eqn:Hr0; [|discriminate].
  destruct (resolve_inv W s0 i0 n0 Hr0) as (d0 & Hd0 & _ & _ & Hne).
  destruct (resolved_stable W s0 Hne) as (Hm & Hs).
  unfold generate_network_config.
  rewrite (bind_run_inr _ _ _ _ _ Hget).
  fold nameserver_block; fold (network_document [nameserver_block]).
  rewrite (bind_run_inr _ _ _ _ _
             (interface_block_resolved W md 0 primary_netcfg
                (i0 :: i1 :: rest) [nameserver_block] i0 _ n0 s0 Hifs eq_refl
                Hr0 (primary_netcfg_describe n0 i0 d0 Hd0))).
  unfold bind at 1.
  rewrite <- Hm in Hlook.
  rewrite (interface_block_unresolved W md 1 secondary_netcfg
             (i0 :: i1 :: rest) _ i1 mac r _ Hifs eq_refl Hmac Hlook Hfalsy).
  rewrite Hs; reflexivity.
Qed.

Lemma generate_network_config_secondary_unresolved_witness :
  let W := Fixture.machine [] [Fixture.iface0; Fixture.iface1]
             [(lit "56:00:03:15:c4:65", lit "eth0")] in
  fst (generate_network_config W Fixture.config (Fixture.boot []))
  = inl RuntimeError.
Proof.
  intros W.
  assert (Hget : get_metadata W Fixture.config (Fixture.boot [])
                 = (inr (mkBundle [] [] [] [] (lit "hunter2") [] [] []
                           (Fixture.instance_doc
                              [Fixture.iface0; Fixture.iface1])),
                    snd (get_metadata W Fixture.config (Fixture.boot []))))
    by (vm_compute; reflexivity).
  rewrite (generate_network_config_secondary_unresolved W Fixture.config _ _ _
             Fixture.iface0 Fixture.iface1 (PStr (lit "5a:00:03:1b:4e:ca"))
             [] None Hget eq_refl eq_refl eq_refl eq_refl eq_refl).
  reflexivity.
Defined.

(** ** The entries the synthesis reads *)

Lemma physical_blocks_firstn (W : host) (s : state) (ifs : list pyval) :
  physical_blocks W s (firstn 2 ifs) = physical_blocks W s ifs.
Proof. destruct ifs as [|i0 [|i1 rest]]; reflexivity. Qed.

Lemma physical_blocks_nic_map (W : host) (s s' : state) (ifs : list pyval) :
  nic_map W s' = nic_map W s ->
  physical_blocks W s' ifs = physical_blocks W s ifs.
Proof.
  intros H; unfold physical_blocks, resolve; rewrite H; reflexivity.
Qed.

Lemma METADATA_resolved (W : host) (s : state) :
  METADATA (resolved W s) = METADATA s
  /\ http_log (resolved W s) = http_log s
  /\ fs (resolved W s) = fs s
  /\ (nic_queries (resolved W s) <= S (nic_queries s))%nat.
Proof.
  unfold resolved; destruct (dict_falsy (MAC_TO_NICS s)); simpl;
    repeat split; lia.
Qed.

Section FirstTwo.

Variable W : host.

(** The run of the synthesis when the first two entries resolve, and the
    run of a second call from the state it leaves. *)
Lemma synthesis_first_two_run (config : params)
    (s s0 : state) (md : bundle) (ifs : list pyval) :
  get_metadata W config s = (inr md, s0) ->
  getitem (v1 md) (lit "interfaces") = inr (PList ifs) ->
  Forall (fun i => resolvable W s0 i = true) (firstn 2 ifs) ->
  exists blocks s',
    physical_blocks W s0 (firstn 2 ifs) = Some blocks
    /\ List.length blocks = Nat.min 2 (List.length ifs)
    /\ s' = match ifs with [] => s0 | _ :: _ => resolved W s0 end
    /\ generate_network_config W config s
       = (inr (network_document (nameserver_block :: blocks)), s')
    /\ forall config',
         generate_network_config W config' s'
         = (inr (network_document (nameserver_block :: blocks)), s').
Proof.
  intros Hget Hifs Hall.
  destruct (physical_blocks_defined W s0 _ Hall) as (blocks & Hb & Hlen).
  exists blocks, (match ifs with [] => s0 | _ :: _ => resolved W s0 end).
  split; [exact Hb|].
  split.
  { rewrite Hlen; destruct ifs as [|i0 [|i1 rest]]; reflexivity. }
  split; [reflexivity|].
  rewrite physical_blocks_firstn in Hb.
  split; [exact (generate_network_config_run W config s s0 md ifs blocks
                   Hget Hifs Hb)|].
  intros config'.
  pose proof (get_metadata_caches W config s s0 md Hget) as Hm.
  destruct ifs as [|i0 rest].
  - exact (generate_network_config_run W config' s0 s0 md [] blocks
             (get_metadata_cached W config' s0 md Hm) Hifs Hb).
  - assert (Hne : nic_map W s0 <> []).
    { cbn [physical_blocks] in Hb.
      destruct (describe i0); [|discriminate].
      destruct (resolve W s0 i0) as [n0|] eqn:Hr0; [|discriminate].
      destruct (resolve_inv W s0 i0 n0 Hr0) as (_ & _ & _ & _ & H).
      exact H. }
    destruct (resolved_stable W s0 Hne) as (Hmap & Hs).
    destruct (METADATA_resolved W s0) as (Hmd & _).
    rewrite (generate_network_config_run W config' (resolved W s0)
               (resolved W s0) md (i0 :: rest) blocks).
    + rewrite Hs; reflexivity.
    + apply get_metadata_cached; congruence.
    + exact Hifs.
    + rewrite (physical_blocks_nic_map W s0 (resolved W s0) _ Hmap).
      exact Hb.
Qed.

End FirstTwo.

(** X12. Only the first two entries of the interface list are read: when
    they resolve, the document is returned with their blocks, whatever the
    entries from index 2 on hold, malformed or unresolved as they may be. *)
Theorem generate_network_config_first_two (W : host) (config : params)
    (s s0 : state) (md : bundle) (ifs : list pyval) :
  get_metadata W config s = (inr md, s0) ->
  getitem (v1 md) (lit "interfaces") = inr (PList ifs) ->
  Forall (fun i => resolvable W s0 i = true) (firstn 2 ifs) ->
  exists blocks s',
    physical_blocks W s0 (firstn 2 ifs) = Some blocks
    /\ List.length blocks = Nat.min 2 (List.length ifs)
    /\ generate_network_config W config s
       = (inr (network_document (nameserver_block :: blocks)), s').
Proof.
  intros Hget Hifs Hall.
  destruct (synthesis_first_two_run W config s s0 md ifs
              Hget Hifs Hall) as (blocks & s' & Hb & Hlen & _ & Hrun & _).
  exists blocks, s'; auto.
Qed.

Lemma generate_network_config_first_two_witness :
  let W := Fixture.machine []
             [Fixture.iface0; Fixture.iface1; PNone;
              PDict [(lit "mac", PStr (lit "00:00:00:00:00:00"))]]
             Fixture.INTERFACE_MAP in
  exists blocks s',
    List.length blocks = 2%nat
    /\ generate_network_config W Fixture.config (Fixture.boot [])
       = (inr (network_document (nameserver_block :: blocks)), s').
Proof.
  intros W.
  assert (Hget : get_metadata W Fixture.config (Fixture.boot [])
                 = (inr (mkBundle [] [] [] [] (lit "hunter2") [] [] []
                           (Fixture.instance_doc
                              [Fixture.iface0; Fixture.iface1; PNone;
                               PDict [(lit "mac",
                                       PStr (lit "00:00:00:00:00:00"))]])),
                    snd (get_metadata W Fixture.config (Fixture.boot []))))
    by (vm_compute; reflexivity).
  destruct (generate_network_config_first_two W Fixture.config _ _ _ _
              Hget eq_refl)
    as (blocks & s' & _ & Hlen & Hrun).
  - repeat constructor.
  - exists blocks, s'; split; [exact Hlen | exact Hrun].
Defined.



(** X14. A document without the key [interfaces], or one that is not a
    dict, makes [generate_network_config] raise the error of that lookup
    (KeyError or TypeError) right after the bundle is obtained, before any
    system query. *)
Theorem generate_network_config_no_interfaces (W : host) (config : params)
    (s s0 : state) (md : bundle) (e : exn) :
  get_metadata W config s = (inr md, s0) ->
  getitem (v1 md) (lit "interfaces") = inl e ->
  generate_network_config W config s = (inl e, s0)
  /\ (e = TypeError \/ e = KeyError (PStr (lit "interfaces"))).
Proof.
  intros Hget Hifs; split.
  - unfold generate_network_config.
    rewrite (bind_run_inr _ _ _ _ _ Hget).
    unfold bind at 1, interface_block; rewrite Hifs; reflexivity.
  - revert Hifs; unfold getitem.
    destruct (v1 md); try (intros E; inversion E; auto; fail).
    destruct (dict_lookup _ _); intros E; inversion E; auto.
Qed.

Lemma generate_network_config_no_interfaces_witness :
  let W := mkHost (fun _ => None)
                  (fun _ _ => Some (mkResponse 200 (lit "{}")))
                  (fun bs => Some bs) (fun _ => Some (PDict []))
                  (fun _ => None) (fun _ => Fixture.INTERFACE_MAP) in
  generate_network_config W Fixture.config (Fixture.boot [])
  = (inl (KeyError (PStr (lit "interfaces"))),
     snd (get_metadata W Fixture.config (Fixture.boot []))).
Proof.
  intros W.
  assert (Hget : get_metadata W Fixture.config (Fixture.boot [])
                 = (inr (mkBundle (lit "{}") (lit "{}") (lit "{}") (lit "{}")
                           (lit "{}") (lit "{}") (lit "{}") (lit "{}")
                           (PDict [])),
                    snd (get_metadata W Fixture.config (Fixture.boot []))))
    by (vm_compute; reflexivity).
  exact (proj1 (generate_network_config_no_interfaces W Fixture.config _ _ _
                  _ Hget eq_refl)).
Defined.

(** ** The vendor document *)

Section VendorDocument.

Variable W : host.

(** The encoding steps on a script that is ASCII: nothing is raised, and the
    script comes out empty exactly when it went in empty. *)
Lemma script_step_ascii (script : pystr) (s : state) :
  is_ascii script = true ->
  exists encoded,
    (if negb (Str.eqb script [])
     then
       raw <- lift (encode_ascii script) ;;
       lift (decode_ascii (b64encode raw))
     else ret script) s = (inr encoded, s)
    /\ Str.eqb encoded [] = Str.eqb script [].
Proof.
  intros Ha; destruct script as [|c script].
  - exists []; split; reflexivity.
  - exists (b64encode (c :: script)); split.
    + cbn [Str.eqb negb]; unfold encode_ascii; rewrite Ha; run.
      unfold decode_ascii; rewrite b64encode_is_ascii; reflexivity.
    + pose proof (b64encode_not_nil (c :: script)) as Hn.
      destruct (b64encode (c :: script)); [|reflexivity].
      exfalso; apply Hn; [discriminate | reflexivity].
Qed.

(** With an empty script, [generate_config] is the template around the
    outcome of the network synthesis. *)
Lemma generate_config_empty_run (config : params) (s s0 : state)
    (md : bundle) :
  get_metadata W config s = (inr md, s0) ->
  startup_script md = [] ->
  generate_config W config s
  = match generate_network_config W config s0 with
    | (inr network, s') =>
        (inr (vendor_template (root_password md) network), s')
    | (inl e, s') => (inl e, s')
    end.
Proof.
  intros Hget Hs; unfold generate_config.
  rewrite (bind_run_inr _ _ _ _ _ Hget), Hs; cbn [Str.eqb negb]; run.
  unfold bind at 1.
  destruct (generate_network_config W config s0) as [[e|network] s'];
    reflexivity.
Qed.

End VendorDocument.

(** X15. With an empty startup script and first two interface entries that
    resolve, [generate_config] returns the template: the fixed flags, the
    password list with the single entry [root:] followed by the root
    password as fetched, the default user root, and the network document
    under [network]; it has neither a [write_files] nor a [runcmd] key. *)
Theorem vendor_document_of_empty_script (W : host) (config : params)
    (s s0 : state) (md : bundle) (ifs : list pyval) :
  get_metadata W config s = (inr md, s0) ->
  startup_script md = [] ->
  getitem (v1 md) (lit "interfaces") = inr (PList ifs) ->
  Forall (fun i => resolvable W s0 i = true) (firstn 2 ifs) ->
  exists blocks doc s',
    physical_blocks W s0 (firstn 2 ifs) = Some blocks
    /\ generate_config W config s = (inr doc, s')
    /\ doc = vendor_template (root_password md)
               (network_document (nameserver_block :: blocks))
    /\ getitem doc (lit "write_files")
       = inl (KeyError (PStr (lit "write_files")))
    /\ getitem doc (lit "runcmd") = inl (KeyError (PStr (lit "runcmd"))).
Proof.
  intros Hget Hs Hifs Hall.
  pose proof (get_metadata_caches W config s s0 md Hget) as Hm.
  destruct (synthesis_first_two_run W config s0 s0 md ifs
              (get_metadata_cached W config s0 md Hm) Hifs Hall)
    as (blocks & s' & Hb & _ & _ & Hrun & _).
  exists blocks; eexists; exists s'.
  split; [exact Hb|].
  rewrite (generate_config_empty_run W config s s0 md Hget Hs), Hrun.
  repeat split; reflexivity.
Qed.

Lemma vendor_document_of_empty_script_witness :
  let W := Fixture.machine [] [Fixture.iface0] Fixture.INTERFACE_MAP in
  exists doc s',
    generate_config W Fixture.config (Fixture.boot []) = (inr doc, s')
    /\ getitem doc (lit "chpasswd")
       = inr (PDict [(lit "expire", PBool false);
                     (lit "list", PList [PStr (lit "root:hunter2")])])
    /\ getitem doc (lit "runcmd") = inl (KeyError (PStr (lit "runcmd"))).
Proof.
  intros W.
  assert (Hget : get_metadata W Fixture.config (Fixture.boot [])
                 = (inr (mkBundle [] [] [] [] (lit "hunter2") [] [] []
                           (Fixture.instance_doc [Fixture.iface0])),
                    snd (get_metadata W Fixture.config (Fixture.boot []))))
    by (vm_compute; reflexivity).
  destruct (vendor_document_of_empty_script W Fixture.config _ _ _ _
              Hget eq_refl eq_refl ltac:(repeat constructor))
    as (blocks & doc & s' & _ & Hrun & Hdoc & _ & Hcmd).
  exists doc, s'; split; [exact Hrun|].
  split; [rewrite Hdoc; reflexivity | exact Hcmd].
Defined.

(** X16. [generate_config] returns a document only for an empty startup
    script: the document is then the template around what
    [generate_network_config] returned. With any other script it raises. *)
Theorem generate_config_document_inv (W : host) (config : params)
    (s s0 s' : state) (md : bundle) (doc : pyval) :
  get_metadata W config s = (inr md, s0) ->
  generate_config W config s = (inr doc, s') ->
  startup_script md = []
  /\ exists network,
       generate_network_config W config s0 = (inr network, s')
       /\ doc = vendor_template (root_password md) network.
Proof.
  intros Hget Hrun.
  destruct (startup_script md) as [|c script] eqn:Hs.
  - split; [reflexivity|].
    rewrite (generate_config_empty_run W config s s0 md Hget Hs) in Hrun.
    destruct (generate_network_config W config s0) as [[e|network] s1];
      inversion Hrun; subst.
    exists network; auto.
  - exfalso.
    destruct (generate_config_script_no_document W config s s0 md Hget)
      as (e & s1 & Hraise & _); [rewrite Hs; discriminate|].
    rewrite Hraise in Hrun; discriminate.
Qed.

Lemma generate_config_document_inv_witness :
  let W := Fixture.machine [] [Fixture.iface0] Fixture.INTERFACE_MAP in
  exists network,
    fst (generate_network_config W Fixture.config
           (snd (get_metadata W Fixture.config (Fixture.boot []))))
    = inr network
    /\ fst (generate_config W Fixture.config (Fixture.boot []))
       = inr (vendor_template (lit "hunter2") network).
Proof.
  intros W.
  assert (Hget : get_metadata W Fixture.config (Fixture.boot [])
                 = (inr (mkBundle [] [] [] [] (lit "hunter2") [] [] []
                           (Fixture.instance_doc [Fixture.iface0])),
                    snd (get_metadata W Fixture.config (Fixture.boot []))))
    by (vm_compute; reflexivity).
  assert (Hrun : generate_config W Fixture.config (Fixture.boot [])
                 = (fst (generate_config W Fixture.config (Fixture.boot [])),
                    snd (generate_config W Fixture.config (Fixture.boot []))))
    by (destruct (generate_config W Fixture.config (Fixture.boot []));
        reflexivity).
  assert (Hdoc : exists doc,
             fst (generate_config W Fixture.config (Fixture.boot []))
             = inr doc)
    by (eexists; vm_compute; reflexivity).
  destruct Hdoc as (doc & Hdoc); rewrite Hdoc in Hrun.
  destruct (generate_config_document_inv W Fixture.config _ _ _ _ _
              Hget Hrun) as (_ & network & Hn & Hd).
  exists network; split; [rewrite Hn; reflexivity|].
  rewrite Hdoc, Hd; reflexivity.
Defined.

(** X17. With an empty startup script and first two interface entries that
    resolve, a second call of [generate_config], with any settings, returns
    the same document and changes nothing. *)
Theorem generate_config_again (W : host) (config config' : params)
    (s s0 : state) (md : bundle) (ifs : list pyval) :
  get_metadata W config s = (inr md, s0) ->
  startup_script md = [] ->
  getitem (v1 md) (lit "interfaces") = inr (PList ifs) ->
  Forall (fun i => resolvable W s0 i = true) (firstn 2 ifs) ->
  let '(r, s') := generate_config W config s in
  (exists doc, r = inr doc) /\ generate_config W config' s' = (r, s').
Proof.
  intros Hget Hs Hifs Hall.
  pose proof (get_metadata_caches W config s s0 md Hget) as Hm.
  destruct (synthesis_first_two_run W config s0 s0 md ifs
              (get_metadata_cached W config s0 md Hm) Hifs Hall)
    as (blocks & s' & _ & _ & Hs' & Hrun & Hagain).
  rewrite (generate_config_empty_run W config s s0 md Hget Hs), Hrun.
  split; [eexists; reflexivity|].
  assert (Hm' : METADATA s' = Some md).
  { subst s'; destruct ifs; [exact Hm|].
    destruct (METADATA_resolved W s0) as (H & _); congruence. }
  rewrite (generate_config_empty_run W config' s' s' md
             (get_metadata_cached W config' s' md Hm') Hs).
  rewrite (Hagain config'); reflexivity.
Qed.

Lemma generate_config_again_witness :
  let W := Fixture.machine [] [Fixture.iface0; Fixture.iface1]
             Fixture.INTERFACE_MAP in
  let '(r, s') := generate_config W Fixture.config (Fixture.boot []) in
  (exists doc, r = inr doc)
  /\ generate_config W (mkParams [] 0 0 0) s' = (r, s').
Proof.
  intros W.
  assert (Hget : get_metadata W Fixture.config (Fixture.boot [])
                 = (inr (mkBundle [] [] [] [] (lit "hunter2") [] [] []
                           (Fixture.instance_doc
                              [Fixture.iface0; Fixture.iface1])),
                    snd (get_metadata W Fixture.config (Fixture.boot []))))
    by (vm_compute; reflexivity).
  exact (generate_config_again W Fixture.config (mkParams [] 0 0 0) _ _ _ _
           Hget eq_refl eq_refl ltac:(repeat constructor)).
Defined.

(** X18. With a startup script that is empty or all ASCII, an exception of
    [generate_network_config] is the exception of [generate_config]: no
    vendor document comes without its network document. *)
Theorem generate_config_network_error (W : host) (config : params)
    (s s0 s1 : state) (md : bundle) (e : exn) :
  get_metadata W config s = (inr md, s0) ->
  is_ascii (startup_script md) = true ->
  generate_network_config W config s0 = (inl e, s1) ->
  generate_config W config s = (inl e, s1).
Proof.
  intros Hget Ha Hn.
  destruct (script_step_ascii (startup_script md) s0 Ha)
    as (encoded & Hstep & _).
  unfold generate_config.
  rewrite (bind_run_inr _ _ _ _ _ Hget).
  rewrite (bind_run_inr _ _ _ _ _ Hstep).
  unfold bind at 1; rewrite Hn; reflexivity.
Qed.

Lemma generate_config_network_error_witness :
  let W := Fixture.machine (lit "echo hi") [Fixture.iface0] [] in
  fst (generate_config W Fixture.config (Fixture.boot [])) = inl RuntimeError.
Proof.
  intros W.
  assert (Hget : get_metadata W Fixture.config (Fixture.boot [])
                 = (inr (mkBundle (lit "echo hi") [] [] [] (lit "hunter2")
                           [] [] [] (Fixture.instance_doc [Fixture.iface0])),
                    snd (get_metadata W Fixture.config (Fixture.boot []))))
    by (vm_compute; reflexivity).
  assert (Hn : generate_network_config W Fixture.config
                 (snd (get_metadata W Fixture.config (Fixture.boot [])))
               = (inl RuntimeError,
                  snd (generate_network_config W Fixture.config
                         (snd (get_metadata W Fixture.config
                                 (Fixture.boot []))))))
    by (vm_compute; reflexivity).
  rewrite (generate_config_network_error W Fixture.config _ _ _ _ _
             Hget eq_refl Hn).
  reflexivity.
Defined.

(** ** The encoded script *)

(** X19. Whatever the bytes, [b64encode] yields ASCII characters only, so
    the [decode("ascii")] that follows it in [generate_config] cannot raise,
    and four characters for every three bytes or part of three. *)
Theorem b64encode_shape (bs : list N) :
  decode_ascii (b64encode bs) = inr (b64encode bs)
  /\ List.length (b64encode bs) = (4 * ((List.length bs + 2) / 3))%nat.
Proof.
  split.
  - unfold decode_ascii; rewrite b64encode_is_ascii; reflexivity.
  - induction bs as [|a|a b|a b c rest IH] using list_ind3;
      try reflexivity.
    cbn [b64encode List.length]; rewrite IH.
    replace (S (S (S (List.length rest))) + 2)%nat
      with ((List.length rest + 2) + 1 * 3)%nat by lia.
    rewrite Nat.div_add by lia; lia.
Qed.

(** ** When [is_vultr] raises *)

(** X20. On a file system where [/proc/cmdline] is absent, a directory, a
    file whose bytes do not decode or a file that reads as text, [is_vultr]
    raises exactly when the manufacturer is not Vultr and [/proc/cmdline] is
    a directory (OSError), or does not decode (UnicodeDecodeError), or reads,
    newlines translated, as a text that holds [root=] and of which the
    substitution leaves fewer than two characters (IndexError). In every
    other case it returns a boolean. *)
Theorem is_vultr_raises_iff (W : host) (s : state) (e : exn) :
  fst (is_vultr W s) = inl e
  <-> opt_str_eqb (read_dmi_data W "system-manufacturer") (lit "Vultr") = false
      /\ match fs_lookup "/proc/cmdline" (fs s) with
         | Some Dir => e = OSError
         | Some Undecodable => e = UnicodeDecodeError
         | Some (File raw) =>
             contains (lit "root=") (universal_newlines raw) = true
             /\ (List.length
                   (Re.sub_dotplus_root (universal_newlines raw)) < 2)%nat
             /\ e = IndexError
         | None => False
         end.
Proof.
  rewrite is_vultr_run; cbn [fst].
  destruct (opt_str_eqb (read_dmi_data W "system-manufacturer") (lit "Vultr")).
  { split; [discriminate | intros [H _]; discriminate]. }
  unfold get_kernel_parameters, path_exists; run.
  destruct (fs_lookup "/proc/cmdline" (fs s)) as [n|] eqn:En; cbn [negb].
  2:{ cbn [ret fst]; split; [discriminate | intros [_ []]]. }
  unfold bind, read_file; rewrite En.
  destruct n as [c| |].
  2:{ cbn [fst]; split; [intros E; inversion E; auto|].
      intros [_ ->]; reflexivity. }
  2:{ cbn [fst]; split; [intros E; inversion E; auto|].
      intros [_ ->]; reflexivity. }
  destruct (contains (lit "root=") (universal_newlines c)); cbn [negb].
  2:{ cbn [ret fst]; split; [discriminate|].
      intros [_ [H _]]; discriminate. }
  destruct (nth_error (Re.sub_dotplus_root (universal_newlines c)) 1)
    as [ch|] eqn:Hn; cbn [ret raise fst].
  - split; [discriminate|].
    intros [_ [_ [Hlen _]]].
    assert (Hsome : nth_error (Re.sub_dotplus_root (universal_newlines c)) 1
                    <> None)
      by (rewrite Hn; discriminate).
    apply nth_error_Some in Hsome; lia.
  - apply nth_error_None in Hn.
    split; [intros E; inversion E; repeat split; auto; lia|].
    intros [_ [_ [_ ->]]]; reflexivity.
Qed.

(** ** The fields of the bundle *)

Section Fields.

Variable W : host.

(** The text a fetch returns from a stateless service, for a key of the
    table. *)
Lemma fetch_metadata_body (flag suffix : pystr) (p : params) (s : state)
    (a : pystr) :
  stateless W ->
  dict_lookup flag API_MAP = Some suffix ->
  fst (fetch_metadata W flag p s) = inr a ->
  body W p suffix = Some a.
Proof.
  intros Hst Hk Hrun.
  assert (Hf : fetchable flag = true) by (unfold fetchable; rewrite Hk; auto).
  rewrite (fetch_metadata_fetchable W flag p s Hf), read_metadata_run in Hrun.
  cbn [fst] in Hrun; unfold body.
  assert (Hu : get_url (url p) flag = url p ++ suffix)
    by (unfold get_url; rewrite Hk; reflexivity).
  rewrite Hu, Hst in Hrun.
  destruct (readurl W [] _) as [r|]; [|discriminate].
  destruct (ok r); cbn [negb] in Hrun; [|discriminate].
  destruct (bytes_decode W (contents r)); inversion Hrun; reflexivity.
Qed.

End Fields.

(** One fetch of the cycle in a proof of what a returned bundle holds: the
    text of the fetch is named and tied to the body of its path. *)
Ltac field_step Hst :=
  rewrite fetch_step by reflexivity; cbv zeta;
  match goal with
  | |- context [fst (fetch_metadata ?W ?f ?p ?s)] =>
      let E := fresh "E" in
      destruct (fst (fetch_metadata W f p s)) eqn:E; [discriminate|];
      apply (fetch_metadata_body W f _ p s _ Hst eq_refl) in E
  end.

(** X21. From a service whose answers do not depend on earlier requests, a
    bundle that [get_metadata] assembles holds, under each of its keys, the
    decoded body served at the path the table binds to that key, and under
    [v1] what [json.loads] makes of the body served at [/v1.json]. *)
Theorem get_metadata_fields (W : host) (p : params) (s s' : state)
    (md : bundle) :
  stateless W ->
  METADATA s = None ->
  get_metadata W p s = (inr md, s') ->
  body W p (lit "/latest/startup-script") = Some (startup_script md)
  /\ body W p (lit "/latest/meta-data/hostname") = Some (hostname md)
  /\ body W p (lit "/latest/user-data") = Some (user_data md)
  /\ body W p (lit "/v1/internal/mdisk-mode") = Some (mdisk_mode md)
  /\ body W p (lit "/v1/internal/root-password") = Some (root_password md)
  /\ body W p (lit "/current/ssh-keys") = Some (ssh_keys md)
  /\ body W p (lit "/current/ipv6-dns1") = Some (ipv6_dns1 md)
  /\ body W p (lit "/current/meta-data/ipv6-addr") = Some (ipv6_addr md)
  /\ exists text, body W p (lit "/v1.json") = Some text
                  /\ json_loads W text = Some (v1 md).
Proof.
  intros Hst Hm; rewrite (get_metadata_fresh W p s Hm).
  destruct (fetch_cycle W p s) as [[e|md'] s1] eqn:Hc; [discriminate|].
  intros E; inversion E; subst md' s'; clear E.
  revert Hc; unfold fetch_cycle.
  do 9 field_step Hst.
  match goal with
  | |- context [json_loads W ?t] =>
      destruct (json_loads W t) as [doc|] eqn:Hj; [|discriminate];
      intros Hfin; inversion Hfin; subst; cbn;
      repeat split; try assumption;
      exists t; split; assumption
  end.
Qed.

Lemma get_metadata_fields_witness :
  let W := Fixture.machine (lit "echo hi") [Fixture.iface0] [] in
  body W Fixture.config (lit "/v1/internal/root-password")
  = Some (lit "hunter2")
  /\ body W Fixture.config (lit "/latest/startup-script")
     = Some (lit "echo hi").
Proof.
  intros W.
  assert (Hst : stateless W) by (intros log rq; reflexivity).
  assert (Hget : get_metadata W Fixture.config (Fixture.boot [])
                 = (inr (mkBundle (lit "echo hi") [] [] [] (lit "hunter2")
                           [] [] [] (Fixture.instance_doc [Fixture.iface0])),
                    snd (get_metadata W Fixture.config (Fixture.boot []))))
    by (vm_compute; reflexivity).
  destruct (get_metadata_fields W Fixture.config (Fixture.boot []) _ _ Hst
              eq_refl Hget)
    as (Ha & _ & _ & _ & He & _).
  split; [exact He | exact Ha].
Defined.
